(** * PFXHandler: the probabilistic-forecast client of the SolarAnywhere API

    A shallow embedding of the class [PFXHandler] of
    [probabilistic_forecast_api_guide.ipynb] (cell 2): [create_headers],
    [get_request] and [parse_response], with the Python objects they touch:
    exceptions, [datetime]/[timedelta] values, response objects, the JSON
    payload and the pandas table that [parse_response] returns. *)

From Stdlib Require Import ZArith Lia Ascii SpecFloat.
From stdpp Require Import base option list strings pretty gmap.

Local Open Scope string_scope.
Local Open Scope Z_scope.

(** ** Exceptions and the error monad *)

(** The exceptions the handler can raise, named by their Python class. *)
Inductive exn : Type :=
  | AssertionError (msg : string)
  | NameError (name : string)
  | AttributeError (msg : string)
  | TypeError (msg : string)
  | ValueError (msg : string)
  | OverflowError
  | JSONDecodeError
  | RequestException.

Definition class_name (e : exn) : string :=
  match e with
  | AssertionError _ => "AssertionError"
  | NameError _ => "NameError"
  | AttributeError _ => "AttributeError"
  | TypeError _ => "TypeError"
  | ValueError _ => "ValueError"
  | OverflowError => "OverflowError"
  | JSONDecodeError => "JSONDecodeError"
  | RequestException => "RequestException"
  end.

(** A Python expression either evaluates to a value or raises. *)
Inductive result (A : Type) : Type :=
  | Return (a : A)
  | Raise (e : exn).
Arguments Return {A} a.
Arguments Raise {A} e.

Global Instance result_ret : MRet result := λ A a, Return a.
Global Instance result_bind : MBind result := λ A B f m,
  match m with
  | Return a => f a
  | Raise e => Raise e
  end.

Global Instance result_fmap : FMap result := λ A B f m,
  match m with
  | Return a => Return (f a)
  | Raise e => Raise e
  end.

Definition raises {A} (m : result A) : Prop := ∃ e, m = Raise e.

(** ** [datetime] and [timedelta] *)

(** A [timedelta] is a signed number of microseconds. *)
Definition timedelta : Type := Z.

Definition timedelta_hours (h : Z) : timedelta := h * 3600 * 1000000.
Definition timedelta_minutes (m : Z) : timedelta := m * 60 * 1000000.

(** A [datetime]: the wall-clock fields as microseconds since
    0001-01-01T00:00:00, and the UTC offset of its [tzinfo] in microseconds
    ([None] for a naive datetime). *)
Record datetime : Type := mk_datetime {
  wall : Z;
  utcoffset : option Z
}.

Global Instance datetime_eq_dec : EqDecision datetime.
Proof. solve_decision. Defined.

(** [datetime.max] is 9999-12-31T23:59:59.999999, day ordinal 3652059. *)
Definition MAXORDINAL : Z := 3652059.
Definition wall_bound : Z := MAXORDINAL * 86400 * 1000000.

Definition in_range (w : Z) : bool := (0 <=? w) && (w <? wall_bound).

(** [d + td]: the fields move, the [tzinfo] stays; out of
    [datetime.min .. datetime.max] raises [OverflowError]. *)
Definition datetime_add (d : datetime) (td : timedelta) : result datetime :=
  let w := wall d + td in
  if in_range w then Return (mk_datetime w (utcoffset d))
  else Raise OverflowError.

(** [d - td] *)
Definition datetime_sub_timedelta (d : datetime) (td : timedelta) : result datetime :=
  datetime_add d (- td).

(** [a - b] on two datetimes. *)
Definition datetime_sub (a b : datetime) : result timedelta :=
  match utcoffset a, utcoffset b with
  | None, None => Return (wall a - wall b)
  | Some oa, Some ob => Return ((wall a - oa) - (wall b - ob))
  | _, _ => Raise (TypeError "can't subtract offset-naive and offset-aware datetimes")
  end.

(** [a < b] on two datetimes. *)
Definition datetime_lt (a b : datetime) : result bool :=
  match utcoffset a, utcoffset b with
  | None, None => Return (wall a <? wall b)
  | Some oa, Some ob => Return (wall a - oa <? wall b - ob)
  | _, _ => Raise (TypeError "can't compare offset-naive and offset-aware datetimes")
  end.

(** The built-in [min(a, b)]: [b] replaces [a] only when [b < a]. *)
Definition py_min (a b : datetime) : result datetime :=
  lt ← datetime_lt b a;
  mret (if lt : bool then b else a).

(** The instant a datetime denotes, on the axis its comparisons use. *)
Definition instant (d : datetime) : Z :=
  wall d - default 0 (utcoffset d).

(** The earlier of two datetimes by their instants, the first on a tie. *)
Definition earlier_of (a b : datetime) : datetime :=
  if instant b <? instant a then b else a.

(** Two datetimes can be compared (and subtracted) when both are naive or
    both are aware. *)
Definition aware (d : datetime) : bool := bool_decide (is_Some (utcoffset d)).
Definition comparable (a b : datetime) : Prop := aware a = aware b.

(** The largest length among the output-field sequences that are present. *)
Definition longest_present {Q : Type} (ghi poai : option (list Q)) : nat :=
  match ghi, poai with
  | Some g, Some p => Nat.max (length g) (length p)
  | Some g, None => length g
  | None, Some p => length p
  | None, None => 0
  end.

(** The start of interval [i]: [i] hours after the first one, in the same
    time zone. *)
Definition start_of (first : datetime) (i : nat) : datetime :=
  mk_datetime (wall first + timedelta_hours (Z.of_nat i)) (utcoffset first).

(** The built-in [max] over a list of lengths. *)
Definition py_max (l : list nat) : result nat :=
  match l with
  | [] => Raise (ValueError "max() arg is an empty sequence")
  | x :: l' => Return (foldl Nat.max x l')
  end.

(** ** What the interpreter and its libraries supply

    [datetime.fromisoformat] on a [str] argument, and the floating-point
    operations of the lead-time expression: [timedelta.total_seconds()],
    true division, the literal [3600.0] and [round(x, ndigits)]. The handler
    is stated over any implementation of them; [CPython] below gives one to
    run it. *)
Class Interp : Type := {
  fromisoformat : string → result datetime;
  float : Type;
  total_seconds : timedelta → float;
  truediv : float → float → float;
  float_3600 : float;
  round_ndigits : float → Z → float
}.

(** ** JSON values *)

(** The scalars of a decoded JSON document; [JNull] is Python's [None],
    which is also what [dict.get] gives for a missing key. *)
Inductive jval : Type :=
  | JNull
  | JBool (b : bool)
  | JInt (n : Z)
  | JStr (s : string).

Global Instance jval_eq_dec : EqDecision jval.
Proof. solve_decision. Defined.

(** [d.get(key, None)] on a dict of scalars. *)
Definition dict_get (key : string) (d : gmap string jval) : jval :=
  default JNull (d !! key).

(** [str(v)], as an f-string formats [v]. *)
Definition py_str (v : jval) : string :=
  match v with
  | JNull => "None"
  | JBool true => "True"
  | JBool false => "False"
  | JInt n => pretty n
  | JStr s => s
  end.

(** ** The pandas table *)

(** A [DataFrame] with the six columns of [forecast_dict], column by column;
    every column has one entry per row. [F] is the type of Python floats,
    [Q] that of the quantile record of one interval. *)
Record DataFrame (F Q : Type) : Type := {
  issue_time : list datetime;
  interval_start : list datetime;
  interval_end : list datetime;
  lead_time_hours : list F;
  GHI : list (option Q);
  POAI : list (option Q)
}.
Arguments Build_DataFrame {F Q} _ _ _ _ _ _.
Arguments issue_time {F Q} _.
Arguments interval_start {F Q} _.
Arguments interval_end {F Q} _.
Arguments lead_time_hours {F Q} _.
Arguments GHI {F Q} _.
Arguments POAI {F Q} _.

Definition nrows {F Q : Type} (df : DataFrame F Q) : nat :=
  length (interval_start df).

(** ** The result payload and [parse_response] *)

Section TimeSeries.
Context `{Interp} {Q : Type}.

(** The dict [res_json] by the four keys [parse_response] reads: each
    field is what [res_json.get(key)] returns. ['Results'] is [None] or a
    dict from output-field names to a JSON array of per-interval quantile
    records ([Q], never inspected) or null. *)
Record payload : Type := {
  Status : jval;
  StartTime : jval;
  TimeGenerated : jval;
  Results : option (gmap string (option (list Q)))
}.

(** [results.get(field, None)] *)
Definition results_get (field : string)
    (results : gmap string (option (list Q))) : option (list Q) :=
  results !! field ≫= id.

(** A dict value given to [pd.DataFrame]: a list is a column as it is,
    [None] is a scalar and fills every row. *)
Definition column (n : nat) (v : option (list Q)) : list (option Q) :=
  match v with
  | Some l => Some <$> l
  | None => replicate n None
  end.

(** [pd.DataFrame(forecast_dict)]: the list-like values must all have one
    length, which becomes the number of rows; scalars are broadcast. *)
Definition pd_DataFrame (forecast_issue_time : datetime)
    (interval_starts interval_ends : list datetime)
    (lead_times : list float) (ghi poai : option (list Q))
  : result (DataFrame float Q) :=
  let n := length interval_starts in
  let lengths := length interval_ends :: length lead_times
                 :: (length <$> omap id [ghi; poai]) in
  if forallb (Nat.eqb n) lengths then
    Return {| issue_time := replicate n forecast_issue_time;
              interval_start := interval_starts;
              interval_end := interval_ends;
              lead_time_hours := lead_times;
              GHI := column n ghi;
              POAI := column n poai |}
  else Raise (ValueError "All arrays must be of the same length").

(** [datetime.fromisoformat(res_json.get(key))] *)
Definition fromisoformat_arg (v : jval) : result datetime :=
  match v with
  | JStr s => fromisoformat s
  | _ => Raise (TypeError "fromisoformat: argument must be str")
  end.

(** Line 102: [min(first_interval_start - timedelta(hours=4), api_call_time)] *)
Definition forecast_issue_time (first_interval_start api_call_time : datetime)
    : result datetime :=
  earliest ← datetime_sub_timedelta first_interval_start (timedelta_hours 4);
  py_min earliest api_call_time.

(** Line 105: [max([len(i) for i in [GHI, POAI] if i is not None])] *)
Definition num_forecasts (ghi poai : option (list Q)) : result nat :=
  py_max (length <$> omap id [ghi; poai]).

(** Line 106 *)
Definition interval_starts (first_interval_start : datetime) (n : nat)
    : result (list datetime) :=
  mapM (λ i : nat, datetime_add first_interval_start
                     (timedelta_minutes (Z.of_nat i * 60))) (seq 0 n).

(** Line 107 *)
Definition interval_ends (starts : list datetime) : result (list datetime) :=
  mapM (λ interval_start, datetime_add interval_start (timedelta_minutes 60)) starts.

(** Line 108, one entry *)
Definition lead_time (issue int_start : datetime) : result float :=
  td ← datetime_sub int_start issue;
  mret (round_ndigits (truediv (total_seconds td) float_3600) 2).

Definition lead_times (issue : datetime) (starts : list datetime)
    : result (list float) :=
  mapM (lead_time issue) starts.

(** Lines 98-117: [parse_response] past the status test. *)
Definition parse_complete (res_json : payload) : result (DataFrame float Q) :=
  first_interval_start ← fromisoformat_arg (StartTime res_json);
  api_call_time ← fromisoformat_arg (TimeGenerated res_json);
  issue ← forecast_issue_time first_interval_start api_call_time;
  results ← match Results res_json with
            | Some r => Return r
            | None => Raise (AttributeError "'NoneType' object has no attribute 'get'")
            end;
  let ghi := results_get "GHI" results in
  let poai := results_get "POAI" results in
  n ← num_forecasts ghi poai;
  starts ← interval_starts first_interval_start n;
  ends ← interval_ends starts;
  leads ← lead_times issue starts;
  pd_DataFrame issue starts ends leads ghi poai.

(** [parse_response]: what it prints, and what it returns ([None] for a
    pending request, the table otherwise) or raises. *)
Definition parse_response (res_json : payload)
    : list string * result (option (DataFrame float Q)) :=
  if decide (Status res_json = JStr "Pending") then
    (["The request is still pending"], Return None)
  else
    ([], Some <$> parse_complete res_json).

End TimeSeries.

(** ** Requests and responses *)

(** An HTTP request as [requests.request(method, url, headers=..., data=...)]
    receives it; the empty [data={}] of the GET is the empty body. *)
Record Request : Type := {
  method : string;
  url : string;
  headers : list (string * string);
  data : string
}.

(** The body of a response, by what [.json()] does with it: it raises when
    the body is not JSON, and yields a dict or some other Python object
    (named by its type) otherwise. *)
Inductive body : Type :=
  | NotJSON
  | JSONObject (d : gmap string jval)
  | JSONOther (type_name : string).

Record Response : Type := {
  status_code : Z;
  content : body
}.

(** The remote service: the answer to each request, or a transport
    failure. *)
Definition network : Type := Request → result Response.

(** The module-level names of the notebook that the handler's methods read:
    [post_response] is bound by cell 25 ([None] while it is unbound). *)
Record Globals : Type := {
  post_response : option Response
}.

Record PFXHandler : Type := {
  api_key : string
}.

Definition pfx_url : string :=
  "https://service.solaranywhere.com/api/v2/ProbabilisticForecast".

(** [PFXHandler(api_key=...)] *)
Definition PFXHandler_init (key : option string) : result PFXHandler :=
  match key with
  | Some k => Return {| api_key := k |}
  | None => Raise (AssertionError
      "You need to set a SolarAnywhere API key with kwarg: api_key=[api_key]")
  end.

Definition create_headers (self : PFXHandler) : list (string * string) :=
  [("Accept", "application/json");
   ("Accept-Charset", "utf-8");
   ("Content-Type", "application/json");
   ("X-Api-Key", api_key self)].

(** [response.json()] *)
Definition json (r : Response) : result body :=
  match content r with
  | NotJSON => Raise JSONDecodeError
  | b => Return b
  end.

(** [post_json.get(key, None)] on whatever [.json()] returned. *)
Definition body_get (key : string) (b : body) : result jval :=
  match b with
  | JSONObject d => Return (dict_get key d)
  | JSONOther ty => Raise (AttributeError ("'" +:+ ty +:+ "' object has no attribute 'get'"))
  | NotJSON => Raise JSONDecodeError
  end.

(** The name [post_response] inside [get_request]: not a local, so it is
    looked up among the module's globals. *)
Definition global_post_response (g : Globals) : result Response :=
  match post_response g with
  | Some r => Return r
  | None => Raise (NameError "post_response")
  end.

(** Lines 73-77 of [get_request]: everything up to the GET. The parameter
    [post_request_response] is bound and never read. *)
Definition get_request_url (self : PFXHandler) (g : Globals)
    (post_request_response : Response) : result Request :=
  post_response ← global_post_response g;
  _ ← (if decide (status_code post_response = 200) then Return ()
       else Raise (AssertionError
              ("Post request status code was not 200, status: "
               +:+ pretty (status_code post_response))));
  let headers := create_headers self in
  post_json ← json post_response;
  request_id ← body_get "ProbabilisticForecastRequestId" post_json;
  let url := pfx_url +:+ "Result/" +:+ py_str request_id in
  mret {| method := "GET"; url := url; headers := headers; data := "" |}.

(** The GET that polls for the result of the job [request_id]. *)
Definition polling_request (self : PFXHandler) (request_id : jval) : Request := {|
  method := "GET";
  url := pfx_url +:+ "Result/" +:+ py_str request_id;
  headers := create_headers self;
  data := ""
|}.

(** [get_request]: the requests it sends, in order, and what it returns or
    raises. *)
Definition get_request (self : PFXHandler) (g : Globals) (net : network)
    (post_request_response : Response) : list Request * result Response :=
  match get_request_url self g post_request_response with
  | Return req => ([req], net req)
  | Raise e => ([], Raise e)
  end.

(** ** An interpreter to run the handler

    IEEE binary64 arithmetic through the Standard Library's [spec_float], and
    a reader for ISO 8601 strings of the shape
    [YYYY-MM-DD(T| )HH:MM:SS[.f{1,6}][Z|+HH:MM|-HH:MM]] (offset hours up to 23,
    minutes up to 59), on which it agrees with [datetime.fromisoformat]; the
    other spellings Python reads are rejected here. *)
Module CPython.

Definition prec : Z := 53.
Definition emax : Z := 1024.

(** An integer as a float operand, mantissa not yet rounded. *)
Definition raw (z : Z) : spec_float :=
  match z with
  | Z0 => S754_zero false
  | Zpos p => S754_finite false p 0
  | Zneg p => S754_finite true p 0
  end.

(** [float(z)] *)
Definition of_int (z : Z) : spec_float := binary_normalize prec emax z 0 false.

(** [int / int] for a non-zero divisor: the quotient, correctly rounded. *)
Definition int_truediv (a b : Z) : spec_float := SFdiv prec emax (raw a) (raw b).

(** [td.total_seconds()] is [microseconds / 10**6]. *)
Definition total_seconds (td : timedelta) : spec_float := int_truediv td 1000000.

(** [a / b] rounded to the nearest integer, ties to even ([0 < b]). *)
Definition div_half_even (a b : Z) : Z :=
  let q := a / b in
  match 2 * (a mod b) ?= b with
  | Lt => q
  | Gt => q + 1
  | Eq => if Z.even q then q else q + 1
  end.

(** [round(x, ndigits)]: the exact binary value of [x] is rounded
    half-even to [ndigits] decimals, and that decimal is converted back to
    the nearest float. *)
Definition round_ndigits (x : spec_float) (ndigits : Z) : spec_float :=
  match x with
  | S754_finite s m e =>
      let up := 10 ^ Z.max 0 ndigits in
      let down := 10 ^ Z.max 0 (- ndigits) in
      let n := div_half_even (Zpos m * 2 ^ Z.max 0 e * up)
                             (2 ^ Z.max 0 (- e) * down) in
      if n =? 0 then S754_zero s
      else SFdiv prec emax (raw ((if s then - n else n) * down)) (raw up)
  | _ => x
  end.

(** *** Reading ISO 8601 strings *)

Definition digit (c : ascii) : option Z :=
  let n := Z.of_N (N_of_ascii c) in
  if (48 <=? n) && (n <=? 57) then Some (n - 48) else None.

Fixpoint number_from (acc : Z) (cs : list ascii) : option Z :=
  match cs with
  | [] => Some acc
  | c :: cs' => d ← digit c; number_from (10 * acc + d) cs'
  end.

(** A non-empty run of decimal digits. *)
Definition number (cs : list ascii) : option Z :=
  match cs with
  | [] => None
  | _ => number_from 0 cs
  end.

Definition is_leap (y : Z) : bool :=
  (y mod 4 =? 0) && (negb (y mod 100 =? 0) || (y mod 400 =? 0)).

Definition days_in_month (y m : Z) : Z :=
  if m =? 2 then (if is_leap y then 29 else 28)
  else if (m =? 4) || (m =? 6) || (m =? 9) || (m =? 11) then 30
  else 31.

Definition days_before_year (y : Z) : Z :=
  let p := y - 1 in p * 365 + p / 4 - p / 100 + p / 400.

Definition days_before_month (y m : Z) : Z :=
  foldr (λ k acc, days_in_month y (Z.of_nat k) + acc) 0
        (seq 1 (Z.to_nat (m - 1))).

(** Day ordinal, 0001-01-01 being day 1. *)
Definition ymd2ord (y m d : Z) : Z :=
  days_before_year y + days_before_month y m + d.

Definition guard_z (b : bool) : option () := if b then Some () else None.

Definition expect (c : ascii) (o : option ascii) : option () :=
  c' ← o; guard_z (bool_decide (c = c')).

(** The longest prefix of decimal digits. *)
Fixpoint leading_digits (cs : list ascii) : list ascii :=
  match cs with
  | c :: cs' => if digit c is Some _ then c :: leading_digits cs' else []
  | [] => []
  end.

(** The fraction [.f{1,6}], in microseconds, and what follows it. *)
Definition fraction (cs : list ascii) : option (Z * list ascii) :=
  match cs with
  | "."%char :: cs' =>
      let ds := leading_digits cs' in
      let k := length ds in
      _ ← guard_z ((1 <=? k)%nat && (k <=? 6)%nat);
      n ← number ds;
      Some (n * 10 ^ Z.of_nat (6 - k), drop k cs')
  | _ => Some (0, cs)
  end.

(** The offset [Z], [+HH:MM] or [-HH:MM], in microseconds. *)
Definition offset (cs : list ascii) : option (option Z) :=
  match cs with
  | [] => Some None
  | ["Z"%char] => Some (Some 0)
  | [sg; h1; h2; ":"%char; m1; m2] =>
      sign ← (if bool_decide (sg = "+"%char) then Some 1
              else if bool_decide (sg = "-"%char) then Some (-1) else None);
      hh ← number [h1; h2];
      mm ← number [m1; m2];
      _ ← guard_z ((hh <=? 23) && (mm <=? 59));
      Some (Some (sign * (hh * 3600 + mm * 60) * 1000000))
  | _ => None
  end.

Definition read_iso (cs : list ascii) : option datetime :=
  y ← number (take 4 cs);
  _ ← expect "-" (cs !! 4%nat);
  mo ← number (take 2 (drop 5 cs));
  _ ← expect "-" (cs !! 7%nat);
  d ← number (take 2 (drop 8 cs));
  sep ← cs !! 10%nat;
  _ ← guard_z (bool_decide (sep = "T"%char) || bool_decide (sep = " "%char));
  hh ← number (take 2 (drop 11 cs));
  _ ← expect ":" (cs !! 13%nat);
  mi ← number (take 2 (drop 14 cs));
  _ ← expect ":" (cs !! 16%nat);
  ss ← number (take 2 (drop 17 cs));
  '(us, rest) ← fraction (drop 19 cs);
  off ← offset rest;
  _ ← guard_z ((1 <=? y) && (y <=? 9999) && (1 <=? mo) && (mo <=? 12)
               && (1 <=? d) && (d <=? days_in_month y mo)
               && (hh <=? 23) && (mi <=? 59) && (ss <=? 59));
  Some {| wall := (((ymd2ord y mo d - 1) * 86400 + hh * 3600 + mi * 60 + ss)
                   * 1000000 + us);
          utcoffset := off |}.

Definition fromisoformat (s : string) : result datetime :=
  match read_iso (String.list_ascii_of_string s) with
  | Some d => Return d
  | None => Raise (ValueError ("Invalid isoformat string: '" +:+ s +:+ "'"))
  end.

End CPython.

Global Instance cpython : Interp := {|
  fromisoformat := CPython.fromisoformat;
  float := spec_float;
  total_seconds := CPython.total_seconds;
  truediv := SFdiv CPython.prec CPython.emax;
  float_3600 := CPython.of_int 3600;
  round_ndigits := CPython.round_ndigits
|}.

(** ** Sample data

    Payloads, responses and a service to run the handler on. The quantile
    record of an interval is a list of integers here. *)

Definition utc (w : Z) : datetime := {| wall := w; utcoffset := Some 0 |}.

(** 2024-02-14 at 02:00, 05:00, 08:30 and 09:00 UTC. *)
Definition t_0200 : datetime := utc 63843472800000000.
Definition t_0500 : datetime := utc 63843483600000000.
Definition t_0830 : datetime := utc 63843496200000000.
Definition t_0900 : datetime := utc 63843498000000000.

(** The call was made at 02:00, before 09:00 - 4h. *)
Definition early_call : payload := {|
  Status := JStr "Complete";
  StartTime := JStr "2024-02-14T09:00:00+00:00";
  TimeGenerated := JStr "2024-02-14T02:00:00+00:00";
  Results := Some {[ "GHI" := Some [[110; 150]; [210; 260]; [300; 380]] ]}
|}.

(** The call was made at 08:30, after 09:00 - 4h. *)
Definition late_call : payload := {|
  Status := JStr "Complete";
  StartTime := JStr "2024-02-14T09:00:00+00:00";
  TimeGenerated := JStr "2024-02-14T08:30:00+00:00";
  Results := Some (<[ "POAI" := Some [[130; 170]; [240; 290]] ]>
                   {[ "GHI" := Some [[110; 150]; [210; 260]] ]})
|}.

Definition pending_call : payload (Q:=list Z) := {|
  Status := JStr "Pending";
  StartTime := JNull;
  TimeGenerated := JInt 7;
  Results := None
|}.

(** Neither output field in the results. *)
Definition no_outputs : payload (Q:=list Z) := {|
  Status := JStr "Complete";
  StartTime := JStr "2024-02-14T09:00:00+00:00";
  TimeGenerated := JStr "2024-02-14T02:00:00+00:00";
  Results := Some ∅
|}.

(** Neither output field, and no start time either. *)
Definition no_outputs_no_start : payload (Q:=list Z) := {|
  Status := JStr "Complete";
  StartTime := JNull;
  TimeGenerated := JStr "2024-02-14T02:00:00+00:00";
  Results := Some {[ "GHI" := None ]}
|}.

(** Three intervals of GHI against two of POAI. *)
Definition uneven : payload := {|
  Status := JStr "Complete";
  StartTime := JStr "2024-02-14T09:00:00+00:00";
  TimeGenerated := JStr "2024-02-14T02:00:00+00:00";
  Results := Some (<[ "POAI" := Some [[130; 170]; [240; 290]] ]>
                   {[ "GHI" := Some [[110; 150]; [210; 260]; [300; 380]] ]})
|}.

(** 10:00, 11:00 and 12:00 UTC on the same day. *)
Definition t_1000 : datetime := utc 63843501600000000.
Definition t_1100 : datetime := utc 63843505200000000.
Definition t_1200 : datetime := utc 63843508800000000.

(** The tables expected for [early_call] and [late_call]. *)
Definition early_table : DataFrame spec_float (list Z) := {|
  issue_time := [t_0200; t_0200; t_0200];
  interval_start := [t_0900; t_1000; t_1100];
  interval_end := [t_1000; t_1100; t_1200];
  lead_time_hours := [CPython.of_int 7; CPython.of_int 8; CPython.of_int 9];
  GHI := [Some [110; 150]; Some [210; 260]; Some [300; 380]];
  POAI := [None; None; None]
|}.

Definition late_table : DataFrame spec_float (list Z) := {|
  issue_time := [t_0500; t_0500];
  interval_start := [t_0900; t_1000];
  interval_end := [t_1000; t_1100];
  lead_time_hours := [CPython.of_int 4; CPython.of_int 5];
  GHI := [Some [110; 150]; Some [210; 260]];
  POAI := [Some [130; 170]; Some [240; 290]]
|}.

Definition handler : PFXHandler := {| api_key := "demo-key" |}.

(** A successful submission, one whose body lacks the identifier, one that
    is not JSON, and a failed one. *)
Definition created : Response := {|
  status_code := 200;
  content := JSONObject (<[ "Status" := JStr "Pending" ]>
                         {[ "ProbabilisticForecastRequestId" := JStr "abc123" ]})
|}.

Definition created_without_id : Response := {|
  status_code := 200;
  content := JSONObject {[ "Status" := JStr "Pending" ]}
|}.

Definition created_not_json : Response := {|
  status_code := 200;
  content := NotJSON
|}.

Definition rejected : Response := {|
  status_code := 500;
  content := JSONObject {[ "Message" := JStr "Internal error" ]}
|}.

(** A service that answers every request with a pending result. *)
Definition service : network := λ _,
  Return {| status_code := 200;
            content := JSONObject {[ "Status" := JStr "Pending" ]} |}.

(** ** [post_request] and the notebook's start times *)

(** [post_request]: [json.dumps(request_body)] is given by its outcome, the
    serialized text or the exception it raises. The response comes back as
    the service gave it. *)
Definition post_request (self : PFXHandler) (net : network)
    (dumped : result string) : list Request * result Response :=
  let headers := create_headers self in
  match dumped with
  | Return body_text =>
      let req := {| method := "POST"; url := pfx_url;
                    headers := headers; data := body_text |} in
      ([req], net req)
  | Raise e => ([], Raise e)
  end.

(** The headers of a request as the dict they were built from. *)
Definition header (name : string) (req : Request) : option string :=
  (list_to_map (headers req) : gmap string string) !! name.

(** [d.replace(minute=0, second=0, microsecond=0, tzinfo=timezone.utc)] *)
Definition replace_hour_utc (d : datetime) : datetime :=
  {| wall := wall d - wall d mod 3600000000; utcoffset := Some 0 |}.

(** Cell 9: the start time of a current forecast, from [datetime.now()]. *)
Definition forecast_start_time (current_time : datetime) : result datetime :=
  forecast_start_time ← datetime_add current_time (timedelta_hours 5);
  mret (replace_hour_utc forecast_start_time).

(** Cell 12: the start time of a backtest, from the issue time wanted. *)
Definition backtest_start_time (forecast_issue_time : datetime) : result datetime :=
  datetime_add forecast_issue_time (timedelta_hours 4).

(** [early_call] with its timestamps written at UTC+01:00. *)
Definition early_call_cet : payload := {|
  Status := JStr "Complete";
  StartTime := JStr "2024-02-14T10:00:00+01:00";
  TimeGenerated := JStr "2024-02-14T03:00:00+01:00";
  Results := Some {[ "GHI" := Some [[110; 150]; [210; 260]; [300; 380]] ]}
|}.

(** A start time without offset against a call time with one. *)
Definition mixed_call : payload (Q:=list Z) := {|
  Status := JStr "Complete";
  StartTime := JStr "2024-02-14T09:00:00";
  TimeGenerated := JStr "2024-02-14T02:00:00+00:00";
  Results := Some {[ "GHI" := Some [[110; 150]] ]}
|}.

(** A present but empty output field. *)
Definition empty_field : payload (Q:=list Z) := {|
  Status := JStr "Complete";
  StartTime := JStr "2024-02-14T09:00:00+00:00";
  TimeGenerated := JStr "2024-02-14T02:00:00+00:00";
  Results := Some {[ "GHI" := Some [] ]}
|}.

(** One interval starting in the last hour of the year 9999. *)
Definition last_hour : payload (Q:=list Z) := {|
  Status := JStr "Complete";
  StartTime := JStr "9999-12-31T23:00:00+00:00";
  TimeGenerated := JStr "2024-02-14T02:00:00+00:00";
  Results := Some {[ "GHI" := Some [[110; 150]] ]}
|}.

(** No results at all. *)
Definition no_results : payload (Q:=list Z) := {|
  Status := JStr "Complete";
  StartTime := JStr "2024-02-14T09:00:00+00:00";
  TimeGenerated := JStr "2024-02-14T02:00:00+00:00";
  Results := None
|}.

(** The same instants as [early_table], on the clock of UTC+01:00. *)
Definition cet (w : Z) : datetime :=
  {| wall := w; utcoffset := Some 3600000000 |}.

Definition early_table_cet : DataFrame spec_float (list Z) := {|
  issue_time := replicate 3 (cet 63843476400000000);
  interval_start := [cet 63843501600000000; cet 63843505200000000;
                     cet 63843508800000000];
  interval_end := [cet 63843505200000000; cet 63843508800000000;
                   cet 63843512400000000];
  lead_time_hours := [CPython.of_int 7; CPython.of_int 8; CPython.of_int 9];
  GHI := [Some [110; 150]; Some [210; 260]; Some [300; 380]];
  POAI := [None; None; None]
|}.

(** 9999-12-31 at 23:00 UTC, and 2024-02-14 at 06:00 and 13:00 UTC. *)
Definition t_last_hour : datetime := utc 315537894000000000.
Definition t_0600 : datetime := utc 63843487200000000.
Definition t_1300 : datetime := utc 63843512400000000.

(** 2024-02-14 at 08:30 and 09:00 on a clock without time zone. *)
Definition naive_0830 : datetime := {| wall := 63843496200000000; utcoffset := None |}.
Definition naive_0900 : datetime := {| wall := 63843498000000000; utcoffset := None |}.
Definition naive_0500 : datetime := {| wall := 63843483600000000; utcoffset := None |}.

(** What [service] answers. *)
Definition pending_answer : Response :=
  {| status_code := 200;
     content := JSONObject {[ "Status" := JStr "Pending" ]} |}.

(** A backtest for the issue time 02:00: start time 06:00, called at
    08:30. *)
Definition backtest_call : payload := {|
  Status := JStr "Complete";
  StartTime := JStr "2024-02-14T06:00:00+00:00";
  TimeGenerated := JStr "2024-02-14T08:30:00+00:00";
  Results := Some {[ "GHI" := Some [[110; 150]; [210; 260]] ]}
|}.

(** A start time in the first hours of year 1: four hours earlier is
    before [datetime.min]. *)
Definition year_one_call : payload (Q:=list Z) := {|
  Status := JStr "Complete";
  StartTime := JStr "0001-01-01T03:00:00+00:00";
  TimeGenerated := JStr "2024-02-14T02:00:00+00:00";
  Results := Some {[ "GHI" := Some [[110; 150]] ]}
|}.

(** Five intervals from 09:00, with the call made 4 h 00 min 54 s before
    the first: every lead time is exactly half-way between two hundredths
    of an hour. *)
Definition tie_call : payload := {|
  Status := JStr "Complete";
  StartTime := JStr "2024-02-14T09:00:00+00:00";
  TimeGenerated := JStr "2024-02-14T04:59:06+00:00";
  Results := Some {[ "GHI" := Some [[1]; [2]; [3]; [4]; [5]] ]}
|}.

(** 04:59:06 UTC on 2024-02-14. *)
Definition t_045906 : datetime := utc 63843483546000000.

(** The lead time as the words "the difference in hours, rounded to two
    decimal places" give it: the exact quotient of the microseconds by one
    hundredth of an hour, rounded half to even, as the float nearest to
    that many hundredths. *)
Definition lead_time_hours_exact (td : timedelta) : spec_float :=
  CPython.int_truediv (CPython.div_half_even td 36000000) 100.

(** The table of [tie_call]: the first four lead times are rounded down to
    4.01 ... 7.01, the fifth up to 8.02. *)
Definition tie_table : DataFrame spec_float (list Z) := {|
  issue_time := replicate 5 t_045906;
  interval_start := [t_0900; t_1000; t_1100; t_1200; t_1300];
  interval_end := [t_1000; t_1100; t_1200; t_1300; utc 63843516000000000];
  lead_time_hours := [CPython.int_truediv 401 100; CPython.int_truediv 501 100;
                      CPython.int_truediv 601 100; CPython.int_truediv 701 100;
                      CPython.int_truediv 802 100];
  GHI := [Some [1]; Some [2]; Some [3]; Some [4]; Some [5]];
  POAI := replicate 5 None
|}.

(** * Properties *)

(** ** The error monad and [mapM] *)

Lemma bind_Return {A B} (m : result A) (f : A → result B) (b : B) :
  m ≫= f = Return b ↔ ∃ a, m = Return a ∧ f a = Return b.
Proof.
  destruct m as [a|e]; simpl; split.
  - intros Hf. by exists a.
  - by intros (a' & [= <-] & Hf).
  - discriminate.
  - by intros (a' & [=] & _).
Qed.

Lemma fmap_Return {A B} (f : A → B) (m : result A) (b : B) :
  f <$> m = Return b ↔ ∃ a, m = Return a ∧ b = f a.
Proof.
  destruct m as [a|e]; simpl; split.
  - intros [= <-]. by exists a.
  - by intros (a' & [= <-] & ->).
  - discriminate.
  - by intros (a' & [=] & _).
Qed.

Lemma raises_bind_l {A B} (m : result A) (f : A → result B) :
  raises m → raises (m ≫= f).
Proof. intros [e ->]. by exists e. Qed.

Lemma raises_bind_r {A B} (m : result A) (f : A → result B) :
  (∀ a, raises (f a)) → raises (m ≫= f).
Proof. intros Hf. destruct m as [a|e]; [apply Hf | by exists e]. Qed.

Lemma not_raises_Return {A} (a : A) : ¬ raises (Return a).
Proof. by intros [e ?]. Qed.

Section mapM_result.
Context {A B : Type} (f : A → result B).

Lemma mapM_Return (l : list A) (k : list B) :
  mapM f l = Return k ↔ Forall2 (λ x y, f x = Return y) l k.
Proof.
  revert k. induction l as [|x l IH]; intros k; simpl.
  - split; [intros [= <-]; constructor | by inversion 1].
  - rewrite bind_Return. split.
    + intros (y & Hy & Hk). apply bind_Return in Hk as (k' & Hk' & [= <-]).
      constructor; [done | by apply IH].
    + inversion 1 as [|? y ? k' Hy Hk']; subst. exists y. split; [done|].
      apply bind_Return. exists k'. split; [by apply IH | done].
Qed.

Lemma mapM_Return_length (l : list A) (k : list B) :
  mapM f l = Return k → length k = length l.
Proof. rewrite mapM_Return. intros Hk. symmetry. by eapply Forall2_length. Qed.

Lemma mapM_Return_lookup (l : list A) (k : list B) (i : nat) (x : A) :
  mapM f l = Return k → l !! i = Some x →
  ∃ y, k !! i = Some y ∧ f x = Return y.
Proof.
  rewrite mapM_Return. intros Hk Hx.
  destruct (Forall2_lookup_l _ _ _ _ _ Hk Hx) as (y & Hy & Hf). eauto.
Qed.

(** [mapM] returns as soon as every element does. *)
Lemma mapM_total (l : list A) :
  Forall (λ x, ∃ y, f x = Return y) l → ∃ k, mapM f l = Return k.
Proof.
  induction 1 as [|x l [y Hy] _ [k Hk]]; simpl.
  - by eexists.
  - exists (y :: k). by rewrite Hy, Hk.
Qed.
End mapM_result.

(** ** [datetime] arithmetic *)

Lemma timedelta_minutes_hours (i : Z) :
  timedelta_minutes (i * 60) = timedelta_hours i.
Proof. unfold timedelta_minutes, timedelta_hours. lia. Qed.

Lemma datetime_add_Return (d d' : datetime) (td : timedelta) :
  datetime_add d td = Return d' ↔
  in_range (wall d + td) = true ∧ d' = mk_datetime (wall d + td) (utcoffset d).
Proof.
  unfold datetime_add. destruct (in_range (wall d + td)); split.
  - by intros [= <-].
  - by intros [_ ->].
  - discriminate.
  - by intros [[=] _].
Qed.

Lemma in_range_spec (w : Z) : in_range w = true ↔ 0 ≤ w < wall_bound.
Proof. unfold in_range. rewrite andb_true_iff, Z.leb_le, Z.ltb_lt. done. Qed.

Lemma datetime_add_aware (d d' : datetime) (td : timedelta) :
  datetime_add d td = Return d' → aware d' = aware d.
Proof. rewrite datetime_add_Return. by intros [_ ->]. Qed.

Lemma datetime_add_instant (d d' : datetime) (td : timedelta) :
  datetime_add d td = Return d' → instant d' = instant d + td.
Proof. rewrite datetime_add_Return. intros [_ ->]. unfold instant; simpl. lia. Qed.

Lemma comparable_cases (a b : datetime) :
  comparable a b ↔
  (utcoffset a = None ∧ utcoffset b = None)
  ∨ (∃ oa ob, utcoffset a = Some oa ∧ utcoffset b = Some ob).
Proof.
  unfold comparable, aware.
  destruct (utcoffset a) as [oa|], (utcoffset b) as [ob|]; split.
  all: try (intros Hc; vm_compute in Hc; discriminate).
  all: try (intros [[[=] [=]]|(? & ? & [=] & [=])]; fail).
  - intros _. right. eauto.
  - done.
  - intros _. by left.
  - done.
Qed.

Lemma datetime_lt_comparable (a b : datetime) :
  comparable a b → datetime_lt a b = Return (instant a <? instant b).
Proof.
  rewrite comparable_cases. unfold datetime_lt, instant.
  intros [[-> ->]|(oa & ob & -> & ->)]; simpl; [|done].
  by rewrite !Z.sub_0_r.
Qed.

Lemma datetime_lt_Return (a b : datetime) (r : bool) :
  datetime_lt a b = Return r → comparable a b.
Proof.
  rewrite comparable_cases. unfold datetime_lt.
  destruct (utcoffset a) as [oa|], (utcoffset b) as [ob|]; try discriminate;
    intros _; [right; eauto | by left].
Qed.

Lemma datetime_sub_comparable (a b : datetime) :
  comparable a b → datetime_sub a b = Return (instant a - instant b).
Proof.
  rewrite comparable_cases. unfold datetime_sub, instant.
  intros [[-> ->]|(oa & ob & -> & ->)]; simpl; [|done].
  by rewrite !Z.sub_0_r.
Qed.

Lemma py_min_comparable (a b : datetime) :
  comparable a b → py_min a b = Return (earlier_of a b).
Proof.
  intros Hc. unfold py_min. by rewrite datetime_lt_comparable.
Qed.

Lemma py_min_Return (a b m : datetime) :
  py_min a b = Return m →
  comparable a b ∧ m = earlier_of a b.
Proof.
  intros Hm. assert (comparable a b) as Hc.
  { unfold py_min in Hm. apply bind_Return in Hm as (r & Hr & _).
    symmetry. by eapply datetime_lt_Return. }
  split; [done|]. rewrite py_min_comparable in Hm by done. by injection Hm.
Qed.

Lemma py_max_le (x : nat) (l : list nat) : (x ≤ foldl Nat.max x l)%nat.
Proof. revert x. induction l as [|y l IH]; intros x; simpl; [lia|]. specialize (IH (x `max` y)%nat). lia. Qed.

(** ** The steps of [parse_response] *)

Section TimeSeriesSteps.
Context `{Interp} {Q : Type}.
Implicit Types (res_json : payload (Q:=Q)) (df : DataFrame float Q).
Implicit Types (ghi poai : option (list Q)).

Lemma interval_starts_Return (first : datetime) (n : nat) (starts : list datetime) :
  interval_starts first n = Return starts →
  length starts = n ∧
  ∀ i, (i < n)%nat →
    starts !! i = Some (start_of first i) ∧
    datetime_add first (timedelta_hours (Z.of_nat i)) = Return (start_of first i).
Proof.
  intros Hs. split.
  { apply mapM_Return_length in Hs. by rewrite length_seq in Hs. }
  intros i Hi.
  destruct (mapM_Return_lookup _ _ _ i i Hs) as (y & Hy & Hadd).
  { by rewrite lookup_seq_lt. }
  rewrite timedelta_minutes_hours in Hadd.
  pose proof Hadd as Hadd'. apply datetime_add_Return in Hadd' as [_ ->].
  done.
Qed.

Lemma interval_ends_Return (starts ends : list datetime) :
  interval_ends starts = Return ends →
  length ends = length starts ∧
  ∀ i x, starts !! i = Some x →
    ∃ y, ends !! i = Some y ∧ datetime_add x (timedelta_hours 1) = Return y.
Proof.
  unfold interval_ends. intros He.
  split; [by apply mapM_Return_length in He|].
  intros i x Hx.
  destruct (mapM_Return_lookup _ _ _ i x He Hx) as (y & Hy & Hadd).
  exists y. split; [done|]. exact Hadd.
Qed.

Lemma lead_times_Return (issue : datetime) (starts : list datetime)
    (leads : list float) :
  lead_times issue starts = Return leads →
  length leads = length starts ∧
  ∀ i x, starts !! i = Some x →
    ∃ y, leads !! i = Some y ∧ lead_time issue x = Return y.
Proof.
  unfold lead_times. intros Hl.
  split; [by apply mapM_Return_length in Hl|].
  intros i x Hx. exact (mapM_Return_lookup _ _ _ i x Hl Hx).
Qed.

Lemma length_column (n : nat) (v : option (list Q)) :
  (∀ l, v = Some l → length l = n) → length (column n v) = n.
Proof.
  destruct v as [l|]; simpl; intros Hl.
  - rewrite length_fmap. by apply Hl.
  - apply length_replicate.
Qed.

Lemma forallb_eqb (n : nat) (l : list nat) :
  forallb (Nat.eqb n) l = true ↔ Forall (eq n) l.
Proof.
  induction l as [|x l IH]; simpl.
  - split; [constructor | done].
  - rewrite andb_true_iff, Nat.eqb_eq, IH, Forall_cons. done.
Qed.

Lemma pd_DataFrame_Return (issue : datetime) (starts ends : list datetime)
    (leads : list float) ghi poai df :
  pd_DataFrame issue starts ends leads ghi poai = Return df ↔
  length ends = length starts ∧ length leads = length starts ∧
  (∀ l, ghi = Some l → length l = length starts) ∧
  (∀ l, poai = Some l → length l = length starts) ∧
  df = {| issue_time := replicate (length starts) issue;
          interval_start := starts;
          interval_end := ends;
          lead_time_hours := leads;
          GHI := column (length starts) ghi;
          POAI := column (length starts) poai |}.
Proof.
  unfold pd_DataFrame.
  destruct (forallb _ _) eqn:Hall.
  - apply forallb_eqb in Hall.
    split; [intros [= <-]|by intros (_ & _ & _ & _ & ->)].
    destruct ghi as [g|], poai as [p|]; simpl in Hall;
      repeat (apply Forall_cons in Hall as [? Hall]);
      repeat split; try done; intros l [= <-]; done.
  - split; [discriminate|]. intros (He & Hl & Hg & Hp & _).
    apply not_true_iff_false in Hall. destruct Hall.
    apply forallb_eqb.
    destruct ghi as [g|], poai as [p|]; simpl;
      repeat apply Forall_cons_2; try apply Forall_nil_2;
      symmetry; eauto.
Qed.

Lemma parse_complete_Return res_json df :
  parse_complete res_json = Return df ↔
  ∃ first called issue results n starts ends leads,
    fromisoformat_arg (StartTime res_json) = Return first ∧
    fromisoformat_arg (TimeGenerated res_json) = Return called ∧
    forecast_issue_time first called = Return issue ∧
    Results res_json = Some results ∧
    num_forecasts (results_get "GHI" results) (results_get "POAI" results)
      = Return n ∧
    interval_starts first n = Return starts ∧
    interval_ends starts = Return ends ∧
    lead_times issue starts = Return leads ∧
    pd_DataFrame issue starts ends leads
      (results_get "GHI" results) (results_get "POAI" results) = Return df.
Proof.
  unfold parse_complete. split.
  - intros Hp.
    apply bind_Return in Hp as (first & Hfirst & Hp).
    apply bind_Return in Hp as (called & Hcalled & Hp).
    apply bind_Return in Hp as (issue & Hissue & Hp).
    apply bind_Return in Hp as (results & Hres & Hp).
    destruct (Results res_json) as [r|] eqn:Hr; [|discriminate].
    injection Hres as ->.
    apply bind_Return in Hp as (n & Hn & Hp).
    apply bind_Return in Hp as (starts & Hstarts & Hp).
    apply bind_Return in Hp as (ends & Hends & Hp).
    apply bind_Return in Hp as (leads & Hleads & Hp).
    by exists first, called, issue, results, n, starts, ends, leads.
  - intros (first & called & issue & results & n & starts & ends & leads
            & -> & -> & Hi & -> & Hn & Hs & He & Hl & Hdf).
    simpl. rewrite Hi. simpl. rewrite Hn. simpl. rewrite Hs. simpl.
    rewrite He. simpl. by rewrite Hl.
Qed.

(** A table comes back only from a payload that is not pending, and then
    it is the one [parse_complete] builds. *)
Lemma parse_response_table res_json (out : list string) df :
  parse_response res_json = (out, Return (Some df)) ↔
  Status res_json ≠ JStr "Pending" ∧ out = [] ∧
  parse_complete res_json = Return df.
Proof.
  unfold parse_response. destruct (decide _) as [Hs|Hs]; split.
  - discriminate.
  - by intros [? _].
  - intros [= <- Hp]. apply fmap_Return in Hp as (df' & Hp & [= ->]). done.
  - intros (_ & -> & ->). done.
Qed.

End TimeSeriesSteps.

(** ** [parse_response] *)

Section Reconstruct.
Context `{Interp} {Q : Type}.
Implicit Types (res_json : payload (Q:=Q)) (df : DataFrame float Q).
Implicit Types (results : gmap string (option (list Q))).

(** C6. A payload whose status is ['Pending'] makes [parse_response]
    print its notice and return [None]: no table, whatever the other
    fields hold, and nothing is raised. *)
Theorem parse_response_pending res_json :
  Status res_json = JStr "Pending" →
  parse_response res_json = (["The request is still pending"], Return None).
Proof. intros Hs. unfold parse_response. by rewrite decide_True. Qed.

Lemma forecast_issue_time_Return (first called earliest : datetime) :
  datetime_sub_timedelta first (timedelta_hours 4) = Return earliest →
  comparable earliest called →
  forecast_issue_time first called = Return (earlier_of earliest called).
Proof.
  intros He Hc. unfold forecast_issue_time. rewrite He. simpl.
  by apply py_min_comparable.
Qed.

Lemma forecast_issue_time_inv (first called issue : datetime) :
  forecast_issue_time first called = Return issue →
  ∃ earliest,
    datetime_sub_timedelta first (timedelta_hours 4) = Return earliest ∧
    comparable earliest called ∧ issue = earlier_of earliest called.
Proof.
  unfold forecast_issue_time. intros Hi.
  apply bind_Return in Hi as (earliest & He & Hm).
  apply py_min_Return in Hm as [Hc ->]. by exists earliest.
Qed.

Lemma instant_earlier_of (a b : datetime) :
  instant (earlier_of a b) = Z.min (instant a) (instant b).
Proof. unfold earlier_of. destruct (Z.ltb_spec (instant b) (instant a)); lia. Qed.

(** C3. A returned table has exactly [num_forecasts] rows; row [i] starts
    [i] hours after the payload's start time and ends one hour after it
    starts, so every interval is one hour wide and each row starts where
    the row before it ends. *)
Theorem parse_response_intervals res_json (out : list string) df :
  parse_response res_json = (out, Return (Some df)) →
  ∃ first results n,
    fromisoformat_arg (StartTime res_json) = Return first ∧
    Results res_json = Some results ∧
    num_forecasts (results_get "GHI" results) (results_get "POAI" results)
      = Return n ∧
    nrows df = n ∧
    (length (issue_time df) = n ∧ length (interval_end df) = n ∧
     length (lead_time_hours df) = n ∧
     length (GHI df) = n ∧ length (POAI df) = n) ∧
    ∀ i, (i < n)%nat →
      datetime_add first (timedelta_hours (Z.of_nat i))
        = Return (start_of first i) ∧
      interval_start df !! i = Some (start_of first i) ∧
      datetime_add (start_of first i) (timedelta_hours 1)
        = Return (start_of first (S i)) ∧
      interval_end df !! i = Some (start_of first (S i)) ∧
      instant (start_of first (S i)) - instant (start_of first i)
        = timedelta_hours 1 ∧
      instant (start_of first i) < instant (start_of first (S i)) ∧
      ((S i < n)%nat → interval_start df !! S i = interval_end df !! i).
Proof.
  intros Hdf. apply parse_response_table in Hdf as (_ & _ & Hdf).
  apply parse_complete_Return in Hdf
    as (first & called & issue & results & n & starts & ends & leads
        & Hfirst & _ & _ & Hres & Hn & Hstarts & Hends & _ & Hdf).
  apply pd_DataFrame_Return in Hdf as (He & Hl & Hg & Hp & ->).
  apply interval_starts_Return in Hstarts as [Hlen Hstarts].
  apply interval_ends_Return in Hends as [_ Hends].
  exists first, results, n. unfold nrows; simpl.
  repeat split; try done; try congruence.
  - rewrite length_replicate. done.
  - rewrite length_column; done.
  - rewrite length_column; done.
  - by apply Hstarts.
  - by apply Hstarts.
  - destruct (Hstarts i) as [Hi _]; [done|].
    destruct (Hends i _ Hi) as (y & _ & Hy).
    pose proof Hy as Hy'. apply datetime_add_Return in Hy' as [_ ->].
    rewrite Hy. f_equal. unfold start_of; simpl. f_equal.
    unfold timedelta_hours. lia.
  - destruct (Hstarts i) as [Hi _]; [done|].
    destruct (Hends i _ Hi) as (y & Hyi & Hy).
    apply datetime_add_Return in Hy as [_ ->].
    rewrite Hyi. f_equal. unfold start_of; simpl. f_equal.
    unfold timedelta_hours. lia.
  - unfold instant, start_of, timedelta_hours; simpl. lia.
  - unfold instant, start_of, timedelta_hours; simpl. lia.
  - intros HS. destruct (Hstarts (S i)) as [-> _]; [done|].
    destruct (Hstarts i) as [Hi _]; [done|].
    destruct (Hends i _ Hi) as (y & Hyi & Hy).
    apply datetime_add_Return in Hy as [_ ->].
    rewrite Hyi. f_equal. unfold start_of; simpl. f_equal.
    unfold timedelta_hours. lia.
Qed.

Lemma num_forecasts_present (ghi poai : option (list Q)) :
  is_Some ghi ∨ is_Some poai →
  num_forecasts ghi poai = Return (longest_present ghi poai).
Proof.
  unfold num_forecasts, longest_present.
  destruct ghi as [g|], poai as [p|]; simpl; try done.
  intros [[? [=]]|[? [=]]].
Qed.

Lemma num_forecasts_absent :
  num_forecasts (Q:=Q) None None
  = Raise (ValueError "max() arg is an empty sequence").
Proof. done. Qed.

Lemma aware_start_of (first : datetime) (i : nat) :
  aware (start_of first i) = aware first.
Proof. done. Qed.

Lemma aware_earlier_of (a b : datetime) :
  comparable a b → aware (earlier_of a b) = aware a.
Proof. unfold earlier_of, comparable. by destruct (_ <? _). Qed.

(** Every interval start can be subtracted from the issue time, so the
    lead-time column never raises. *)
Lemma lead_times_total (first called issue : datetime) (n : nat)
    (starts : list datetime) :
  forecast_issue_time first called = Return issue →
  interval_starts first n = Return starts →
  ∃ leads, lead_times issue starts = Return leads.
Proof.
  intros Hissue Hstarts. apply mapM_total, Forall_lookup. intros i x Hx.
  apply forecast_issue_time_inv in Hissue as (earliest & He & Hc & ->).
  apply interval_starts_Return in Hstarts as [Hlen Hstarts].
  destruct (Hstarts i) as [Hi _].
  { rewrite <- Hlen. by eapply lookup_lt_Some. }
  rewrite Hx in Hi. injection Hi as ->.
  unfold lead_time. rewrite datetime_sub_comparable; [by eexists|].
  unfold comparable. rewrite aware_start_of, aware_earlier_of by done.
  symmetry. by eapply datetime_add_aware.
Qed.

(** C7, as the code has it. For a payload that is not pending and has
    neither GHI nor POAI in its results, [parse_response] raises and returns
    no table, so never one of zero rows: the number of intervals is the
    [max] of an empty list, which raises the built-in [ValueError] once the
    two timestamps have been read and compared; a payload that fails before
    that raises the earlier exception. *)
Theorem parse_response_no_output_fields res_json results :
  Status res_json ≠ JStr "Pending" →
  Results res_json = Some results →
  results_get "GHI" results = None →
  results_get "POAI" results = None →
  (∃ e, parse_response res_json = ([], Raise e)) ∧
  ∀ first called issue,
    fromisoformat_arg (StartTime res_json) = Return first →
    fromisoformat_arg (TimeGenerated res_json) = Return called →
    forecast_issue_time first called = Return issue →
    parse_response res_json
      = ([], Raise (ValueError "max() arg is an empty sequence")).
Proof.
  intros Hst Hres Hg Hp. unfold parse_response. rewrite decide_False by done.
  split.
  - destruct (parse_complete res_json) as [df|e] eqn:Hdf; [|by exists e].
    apply parse_complete_Return in Hdf
      as (? & ? & ? & results' & n & ? & ? & ?
          & _ & _ & _ & Hres' & Hn & _).
    rewrite Hres in Hres'. injection Hres' as <-.
    by rewrite Hg, Hp in Hn.
  - intros first called issue Hfirst Hcalled Hissue.
    unfold parse_complete. rewrite Hfirst, Hcalled. simpl.
    rewrite Hissue, Hres. simpl. by rewrite Hg, Hp.
Qed.

(** C10. When GHI and POAI are both present with sequences of different
    lengths, [parse_response] raises and returns no table; once the
    timestamps and the interval bounds have been computed, the exception
    is the one [pd.DataFrame] raises for columns of unequal length, so the
    shorter field is not padded. *)
Theorem parse_response_length_mismatch res_json results (g p : list Q) :
  Status res_json ≠ JStr "Pending" →
  Results res_json = Some results →
  results_get "GHI" results = Some g →
  results_get "POAI" results = Some p →
  length g ≠ length p →
  (∃ e, parse_response res_json = ([], Raise e)) ∧
  ∀ first called issue starts ends,
    fromisoformat_arg (StartTime res_json) = Return first →
    fromisoformat_arg (TimeGenerated res_json) = Return called →
    forecast_issue_time first called = Return issue →
    interval_starts first (Nat.max (length g) (length p)) = Return starts →
    interval_ends starts = Return ends →
    parse_response res_json
      = ([], Raise (ValueError "All arrays must be of the same length")).
Proof.
  intros Hst Hres Hg Hp Hne. unfold parse_response.
  rewrite decide_False by done. split.
  - destruct (parse_complete res_json) as [df|e] eqn:Hdf; [|by exists e].
    apply parse_complete_Return in Hdf
      as (? & ? & ? & results' & n & starts & ? & ?
          & _ & _ & _ & Hres' & _ & _ & _ & _ & Hdf).
    rewrite Hres in Hres'. injection Hres' as <-.
    apply pd_DataFrame_Return in Hdf as (_ & _ & Hlg & Hlp & _).
    rewrite (Hlg _ Hg), (Hlp _ Hp) in Hne. done.
  - intros first called issue starts ends Hfirst Hcalled Hissue Hstarts Hends.
    destruct (lead_times_total _ _ _ _ _ Hissue Hstarts) as [leads Hleads].
    unfold parse_complete. rewrite Hfirst, Hcalled. simpl.
    rewrite Hissue, Hres. simpl. rewrite Hg, Hp.
    change (num_forecasts (Some g) (Some p))
      with (Return (Nat.max (length g) (length p))).
    simpl. rewrite Hstarts. simpl. rewrite Hends. simpl. rewrite Hleads. simpl.
    destruct (pd_DataFrame _ _ _ _ _ _) as [df|e] eqn:Hdf.
    + apply pd_DataFrame_Return in Hdf as (_ & _ & Hlg & Hlp & _).
      rewrite (Hlg _ eq_refl), (Hlp _ eq_refl) in Hne. done.
    + unfold pd_DataFrame in Hdf. destruct (forallb _ _); [done|].
      by injection Hdf as <-.
Qed.

(** Row [i] of the lead-time column is the float expression of line 108 on
    the microseconds between the issue time and the start of interval
    [i]. *)
Lemma parse_response_lead_times res_json (out : list string) df :
  parse_response res_json = (out, Return (Some df)) →
  ∃ first called issue,
    fromisoformat_arg (StartTime res_json) = Return first ∧
    fromisoformat_arg (TimeGenerated res_json) = Return called ∧
    forecast_issue_time first called = Return issue ∧
    ∀ i, (i < nrows df)%nat →
      lead_time_hours df !! i
      = Some (round_ndigits
                (truediv (total_seconds (instant (start_of first i) - instant issue))
                         float_3600) 2).
Proof.
  intros Hdf. apply parse_response_table in Hdf as (_ & _ & Hdf).
  apply parse_complete_Return in Hdf
    as (first & called & issue & results & n & starts & ends & leads
        & Hfirst & Hcalled & Hissue & _ & _ & Hstarts & _ & Hleads & Hdf).
  apply pd_DataFrame_Return in Hdf as (_ & _ & _ & _ & ->).
  exists first, called, issue. repeat split; try done.
  unfold nrows; simpl. intros i Hi.
  pose proof (interval_starts_Return _ _ _ Hstarts) as [Hlen Hnth].
  destruct (Hnth i) as [Hx _]; [by rewrite <- Hlen|].
  apply lead_times_Return in Hleads as [_ Hleads].
  destruct (Hleads i _ Hx) as (y & -> & Hy). f_equal.
  apply forecast_issue_time_inv in Hissue as (earliest & He & Hc & ->).
  unfold lead_time in Hy. rewrite datetime_sub_comparable in Hy.
  - simpl in Hy. by injection Hy as <-.
  - unfold comparable. rewrite aware_start_of, aware_earlier_of by done.
    symmetry. by eapply datetime_add_aware.
Qed.

(** [parse_response] does return a table: for a payload that is not
    pending, whose timestamps parse and can be compared, with an output
    field present, equal lengths when both are, and intervals that end
    within the range of [datetime]. *)
Lemma parse_response_returns res_json results (first called earliest : datetime) :
  Status res_json ≠ JStr "Pending" →
  fromisoformat_arg (StartTime res_json) = Return first →
  fromisoformat_arg (TimeGenerated res_json) = Return called →
  datetime_sub_timedelta first (timedelta_hours 4) = Return earliest →
  comparable earliest called →
  Results res_json = Some results →
  is_Some (results_get "GHI" results) ∨ is_Some (results_get "POAI" results) →
  (∀ g p, results_get "GHI" results = Some g →
          results_get "POAI" results = Some p → length g = length p) →
  wall first + timedelta_hours (Z.of_nat
    (longest_present (results_get "GHI" results) (results_get "POAI" results)))
    < wall_bound →
  ∃ df, parse_response res_json = ([], Return (Some df)).
Proof.
  intros Hst Hfirst Hcalled He Hc Hres Hsome Heq Hbound.
  set (ghi := results_get "GHI" results) in *.
  set (poai := results_get "POAI" results) in *.
  set (n := longest_present ghi poai) in *.
  assert (0 ≤ wall first) as Hlow.
  { apply datetime_add_Return in He as [Hr _]. apply in_range_spec in Hr.
    unfold timedelta_hours in Hr. lia. }
  assert (∃ starts, interval_starts first n = Return starts) as [starts Hstarts].
  { apply mapM_total, Forall_lookup. intros i x Hx.
    apply lookup_seq in Hx as [-> Hi]. simpl.
    eexists. apply datetime_add_Return. split; [|done].
    apply in_range_spec. rewrite timedelta_minutes_hours.
    unfold timedelta_hours in *. lia. }
  pose proof (interval_starts_Return _ _ _ Hstarts) as [Hlen Hnth].
  assert (∃ ends, interval_ends starts = Return ends) as [ends Hends].
  { apply mapM_total, Forall_lookup. intros i x Hx.
    assert (i < n)%nat as Hi by (rewrite <- Hlen; by eapply lookup_lt_Some).
    destruct (Hnth i Hi) as [Hx' _]. rewrite Hx in Hx'. injection Hx' as ->.
    eexists. apply datetime_add_Return. split; [|done].
    apply in_range_spec. unfold start_of, timedelta_minutes, timedelta_hours in *.
    simpl. lia. }
  assert (forecast_issue_time first called = Return (earlier_of earliest called))
    as Hissue by by apply forecast_issue_time_Return.
  destruct (lead_times_total _ _ _ _ _ Hissue Hstarts) as [leads Hleads].
  eexists. apply parse_response_table. repeat split; [done|].
  apply parse_complete_Return.
  exists first, called, (earlier_of earliest called), results, n, starts, ends, leads.
  repeat split; try done.
  { by apply num_forecasts_present. }
  apply pd_DataFrame_Return.
  apply interval_ends_Return in Hends as [Hlends _].
  apply lead_times_Return in Hleads as [Hlleads _].
  repeat split; try done.
  - intros l Hl. rewrite Hlen. unfold n, longest_present.
    fold ghi in Hl. rewrite Hl. destruct poai as [p|] eqn:Hp; [|done].
    rewrite (Heq l p Hl eq_refl). lia.
  - intros l Hl. rewrite Hlen. unfold n, longest_present.
    fold poai in Hl. rewrite Hl. destruct ghi as [g|] eqn:Hg; [|done].
    rewrite (Heq g l eq_refl Hl). lia.
Qed.

End Reconstruct.

(** ** [get_request] *)

Lemma get_request_url_checked (self : PFXHandler) (g : Globals)
    (argument checked : Response) (d : gmap string jval) :
  post_response g = Some checked →
  status_code checked = 200 →
  content checked = JSONObject d →
  get_request_url self g argument
  = Return (polling_request self (dict_get "ProbabilisticForecastRequestId" d)).
Proof.
  intros Hg Hs Hc. unfold get_request_url, global_post_response, json.
  rewrite Hg. simpl. rewrite decide_True by done. simpl.
  rewrite Hc. done.
Qed.

Lemma get_request_url_refused (self : PFXHandler) (g : Globals)
    (argument checked : Response) :
  post_response g = Some checked →
  status_code checked ≠ 200 →
  get_request_url self g argument
  = Raise (AssertionError ("Post request status code was not 200, status: "
                           +:+ pretty (status_code checked))).
Proof.
  intros Hg Hs. unfold get_request_url, global_post_response.
  rewrite Hg. simpl. by rewrite decide_False.
Qed.

(** C1, as the code has it. When the submission is the response bound to
    [post_response], has status 200 and a JSON object for a body that lacks
    the identifier, [get_request] raises nothing: the identifier is [None],
    and one GET goes to the polling URL ending in [Result/None]; its answer
    is returned. *)
Theorem get_request_missing_identifier (self : PFXHandler) (g : Globals)
    (net : network) (submission : Response) (d : gmap string jval) :
  post_response g = Some submission →
  status_code submission = 200 →
  content submission = JSONObject d →
  d !! "ProbabilisticForecastRequestId" = None →
  url (polling_request self JNull) = pfx_url +:+ "Result/None" ∧
  get_request self g net submission
  = ([polling_request self JNull], net (polling_request self JNull)).
Proof.
  intros Hg Hs Hc Hd. split; [done|]. unfold get_request.
  rewrite (get_request_url_checked _ _ _ _ _ Hg Hs Hc).
  unfold dict_get. by rewrite Hd.
Qed.

(** C8, as the code has it. When the submission is the response bound to
    [post_response]: with a status other than 200, [get_request] raises
    [AssertionError] and sends nothing; with status 200 the assertion
    passes, and once the body has been read as a JSON object exactly one
    GET goes to the polling URL of its identifier. *)
Theorem get_request_status_check (self : PFXHandler) (g : Globals)
    (net : network) (submission : Response) :
  post_response g = Some submission →
  (status_code submission ≠ 200 →
     get_request self g net submission
     = ([], Raise (AssertionError
                     ("Post request status code was not 200, status: "
                      +:+ pretty (status_code submission))))) ∧
  (status_code submission = 200 →
     ∀ d, content submission = JSONObject d →
       let req := polling_request self
                    (dict_get "ProbabilisticForecastRequestId" d) in
       method req = "GET" ∧ get_request self g net submission = ([req], net req)).
Proof.
  intros Hg. split.
  - intros Hs. unfold get_request.
    by rewrite (get_request_url_refused _ _ _ _ Hg Hs).
  - intros Hs d Hc. split; [done|]. unfold get_request.
    by rewrite (get_request_url_checked _ _ _ _ _ Hg Hs Hc).
Qed.

(** C9. [get_request] does not depend on its parameter: under the same
    globals, handler and service, any two arguments lead to the same check,
    the same request and the same outcome, because the body reads the
    module-level [post_response]. *)
Theorem get_request_ignores_argument (self : PFXHandler) (g : Globals)
    (net : network) (a b : Response) :
  get_request_url self g a = get_request_url self g b ∧
  get_request self g net a = get_request self g net b.
Proof. split; reflexivity. Qed.

(** What the argument's own status would have decided is not what happens:
    a failed submission passed while [post_response] holds a successful one
    is polled for, and without [post_response] the call ends in
    [NameError]. *)
Example get_request_failed_argument :
  status_code rejected = 500 ∧
  get_request handler {| post_response := Some created |} service rejected
  = ([polling_request handler (JStr "abc123")],
     service (polling_request handler (JStr "abc123"))).
Proof. split; [done|]. by vm_compute. Qed.

Example get_request_unbound_global :
  get_request handler {| post_response := None |} service created
  = ([], Raise (NameError "post_response")).
Proof. done. Qed.

(** ** The handler on the sample data *)

Example fromisoformat_sample :
  CPython.fromisoformat "2024-02-14T09:00:00+00:00" = Return t_0900 ∧
  CPython.fromisoformat "2024-02-14T09:00:00Z" = Return t_0900 ∧
  CPython.fromisoformat "2024-02-14T11:00:00.5+02:00"
  = Return {| wall := 63843505200500000; utcoffset := Some 7200000000 |} ∧
  CPython.fromisoformat "2024-02-14T09:00:00"
  = Return {| wall := 63843498000000000; utcoffset := None |}.
Proof. by vm_compute. Qed.

(** The scenario of an early call: issue time 02:00, three hourly intervals
    from 09:00, lead times 7.0, 8.0 and 9.0 hours. *)
Example parse_response_early_call :
  parse_response early_call = ([], Return (Some early_table)).
Proof. by vm_compute. Qed.

(** A late call: the issue time is 09:00 - 4h = 05:00. *)
Example parse_response_late_call :
  parse_response late_call = ([], Return (Some late_table)).
Proof. by vm_compute. Qed.

(** A lead time that falls half-way between two hundredths of an hour is
    rounded by the binary value of the quotient: 18 s (0.005 h) goes up to
    0.01, 54 s (0.015 h) down to 0.01, 90 s (0.025 h) up to 0.03, and 450 s
    (0.125 h, exact in binary) to the even 0.12. *)
Example lead_time_ties :
  lead_time (utc 0) (utc 18000000) = Return (CPython.int_truediv 1 100) ∧
  lead_time (utc 0) (utc 54000000) = Return (CPython.int_truediv 1 100) ∧
  lead_time (utc 0) (utc 90000000) = Return (CPython.int_truediv 3 100) ∧
  lead_time (utc 0) (utc 450000000) = Return (CPython.int_truediv 12 100).
Proof. by vm_compute. Qed.

Lemma parse_response_pending_witness :
  parse_response pending_call = (["The request is still pending"], Return None).
Proof. apply (parse_response_pending pending_call). reflexivity. Defined.

Lemma parse_response_intervals_witness :
  ∃ first results n,
    fromisoformat_arg (StartTime early_call) = Return first ∧
    Results early_call = Some results ∧
    num_forecasts (results_get "GHI" results) (results_get "POAI" results)
      = Return n ∧
    nrows early_table = n ∧
    (length (issue_time early_table) = n ∧ length (interval_end early_table) = n ∧
     length (lead_time_hours early_table) = n ∧
     length (GHI early_table) = n ∧ length (POAI early_table) = n) ∧
    ∀ i, (i < n)%nat →
      datetime_add first (timedelta_hours (Z.of_nat i))
        = Return (start_of first i) ∧
      interval_start early_table !! i = Some (start_of first i) ∧
      datetime_add (start_of first i) (timedelta_hours 1)
        = Return (start_of first (S i)) ∧
      interval_end early_table !! i = Some (start_of first (S i)) ∧
      instant (start_of first (S i)) - instant (start_of first i)
        = timedelta_hours 1 ∧
      instant (start_of first i) < instant (start_of first (S i)) ∧
      ((S i < n)%nat →
         interval_start early_table !! S i = interval_end early_table !! i).
Proof.
  apply (parse_response_intervals (H:=cpython) early_call [] early_table).
  vm_compute. reflexivity.
Defined.

Lemma parse_response_no_output_fields_witness :
  (∃ e, parse_response no_outputs = ([], Raise e)) ∧
  ∀ first called issue,
    fromisoformat_arg (StartTime no_outputs) = Return first →
    fromisoformat_arg (TimeGenerated no_outputs) = Return called →
    forecast_issue_time first called = Return issue →
    parse_response no_outputs
      = ([], Raise (ValueError "max() arg is an empty sequence")).
Proof.
  apply (parse_response_no_output_fields no_outputs ∅).
  - discriminate.
  - reflexivity.
  - reflexivity.
  - reflexivity.
Defined.

Lemma parse_response_length_mismatch_witness :
  (∃ e, parse_response uneven = ([], Raise e)) ∧
  ∀ first called issue starts ends,
    fromisoformat_arg (StartTime uneven) = Return first →
    fromisoformat_arg (TimeGenerated uneven) = Return called →
    forecast_issue_time first called = Return issue →
    interval_starts first (Nat.max 3 2) = Return starts →
    interval_ends starts = Return ends →
    parse_response uneven
      = ([], Raise (ValueError "All arrays must be of the same length")).
Proof.
  apply (parse_response_length_mismatch uneven
           (<[ "POAI" := Some [[130; 170]; [240; 290]] ]>
            {[ "GHI" := Some [[110; 150]; [210; 260]; [300; 380]] ]})
           [[110; 150]; [210; 260]; [300; 380]] [[130; 170]; [240; 290]]).
  - discriminate.
  - reflexivity.
  - vm_compute. reflexivity.
  - vm_compute. reflexivity.
  - simpl. lia.
Defined.

Lemma get_request_missing_identifier_witness :
  url (polling_request handler JNull) = pfx_url +:+ "Result/None" ∧
  get_request handler {| post_response := Some created_without_id |} service
    created_without_id
  = ([polling_request handler JNull], service (polling_request handler JNull)).
Proof.
  apply (get_request_missing_identifier handler
           {| post_response := Some created_without_id |} service
           created_without_id {[ "Status" := JStr "Pending" ]}).
  - reflexivity.
  - reflexivity.
  - reflexivity.
  - vm_compute. reflexivity.
Defined.

Lemma get_request_status_check_witness :
  (status_code rejected ≠ 200 →
     get_request handler {| post_response := Some rejected |} service rejected
     = ([], Raise (AssertionError
                     ("Post request status code was not 200, status: "
                      +:+ pretty (status_code rejected))))) ∧
  (status_code rejected = 200 →
     ∀ d, content rejected = JSONObject d →
       let req := polling_request handler
                    (dict_get "ProbabilisticForecastRequestId" d) in
       method req = "GET" ∧
       get_request handler {| post_response := Some rejected |} service rejected
       = ([req], service req)).
Proof.
  apply (get_request_status_check handler
           {| post_response := Some rejected |} service rejected).
  reflexivity.
Defined.

(** ** Where the code departs from the stated behaviour *)

(** C1. A status-200 submission whose body has no
    ['ProbabilisticForecastRequestId']: [get_request] does not fail, and
    the one request it sends is the GET for the identifier [None]. *)
Lemma get_request_missing_identifier_counterexample :
  let run := get_request handler {| post_response := Some created_without_id |}
               service created_without_id in
  (∀ d, content created_without_id = JSONObject d →
        d !! "ProbabilisticForecastRequestId" = None) ∧
  ¬ raises run.2 ∧
  url <$> run.1
  = ["https://service.solaranywhere.com/api/v2/ProbabilisticForecastResult/None"].
Proof.
  split; [|split].
  - intros d [= <-]. by vm_compute.
  - intros [e He]. vm_compute in He. discriminate.
  - by vm_compute.
Qed.

(** C7. With both output fields absent the exception is the built-in
    [ValueError] of [max], not a [NoOutputFieldsError]; and a payload that
    also lacks its start time fails before that, with the [TypeError] of
    [fromisoformat]. *)
Lemma parse_response_no_output_fields_counterexample :
  (Status no_outputs ≠ JStr "Pending" ∧
   ∃ results, Results no_outputs = Some results ∧
     results_get "GHI" results = None ∧ results_get "POAI" results = None) ∧
  (parse_response no_outputs).2
    = Raise (ValueError "max() arg is an empty sequence") ∧
  ¬ (∃ e, (parse_response no_outputs).2 = Raise e
          ∧ class_name e = "NoOutputFieldsError") ∧
  (parse_response no_outputs_no_start).2
    = Raise (TypeError "fromisoformat: argument must be str").
Proof.
  repeat split.
  - discriminate.
  - exists ∅. by vm_compute.
  - intros (e & He & Hn). vm_compute in He. injection He as <-. discriminate.
Qed.

(** C8. For a submission with status 500 the exception is
    [AssertionError], not an [InvalidSubmissionError]; and for one with
    status 200 whose body is not JSON the check passes but no GET is
    sent. *)
Lemma get_request_status_check_counterexample :
  (status_code rejected ≠ 200 ∧
   get_request handler {| post_response := Some rejected |} service rejected
   = ([], Raise (AssertionError
                   "Post request status code was not 200, status: 500")) ∧
   ¬ (∃ e, (get_request handler {| post_response := Some rejected |}
              service rejected).2 = Raise e
           ∧ class_name e = "InvalidSubmissionError")) ∧
  (status_code created_not_json = 200 ∧
   get_request handler {| post_response := Some created_not_json |} service
     created_not_json = ([], Raise JSONDecodeError)).
Proof.
  repeat split.
  - discriminate.
  - intros (e & He & Hn). vm_compute in He. injection He as <-. discriminate.
Qed.

(** * Further properties of the handler *)

(** ** Exceptions through [≫=] and [mapM] *)

Lemma bind_Raise {A B} (m : result A) (f : A → result B) (e : exn) :
  m ≫= f = Raise e ↔ m = Raise e ∨ ∃ a, m = Return a ∧ f a = Raise e.
Proof.
  destruct m as [a|e']; simpl; split.
  - intros Hf. right. by exists a.
  - by intros [[=]|(a' & [= <-] & Hf)].
  - intros [= ->]. by left.
  - by intros [[= ->]|(a' & [=] & _)].
Qed.

Lemma mapM_Raise {A B} (f : A → result B) (l : list A) (e : exn) :
  mapM f l = Raise e → ∃ x, x ∈ l ∧ f x = Raise e.
Proof.
  induction l as [|x l IH]; simpl; [discriminate|].
  intros Hl. apply bind_Raise in Hl as [Hx|(y & _ & Hl)].
  - exists x. split; [left | done].
  - apply bind_Raise in Hl as [Hl|(k & _ & [=])].
    destruct (IH Hl) as (x' & Hin & Hx'). exists x'. split; [by right | done].
Qed.

Lemma datetime_add_Raise (d : datetime) (td : timedelta) (e : exn) :
  datetime_add d td = Raise e ↔ in_range (wall d + td) = false ∧ e = OverflowError.
Proof.
  unfold datetime_add. destruct (in_range _); split.
  - discriminate.
  - by intros [[=] _].
  - by intros [= <-].
  - by intros [_ ->].
Qed.

Lemma instant_start_of (first : datetime) (i : nat) :
  instant (start_of first i) = instant first + timedelta_hours (Z.of_nat i).
Proof. unfold instant, start_of; simpl. lia. Qed.

Section TableShape.
Context `{Interp} {Q : Type}.
Implicit Types (res_json : payload (Q:=Q)) (df : DataFrame float Q).

(** A returned table, spelled out: its columns in terms of the two
    timestamps and the results of the payload. *)
Lemma parse_response_table_inv res_json (out : list string) df :
  parse_response res_json = (out, Return (Some df)) →
  ∃ first called earliest results n leads,
    Status res_json ≠ JStr "Pending" ∧ out = [] ∧
    fromisoformat_arg (StartTime res_json) = Return first ∧
    fromisoformat_arg (TimeGenerated res_json) = Return called ∧
    datetime_sub_timedelta first (timedelta_hours 4) = Return earliest ∧
    comparable earliest called ∧
    Results res_json = Some results ∧
    num_forecasts (results_get "GHI" results) (results_get "POAI" results)
      = Return n ∧
    length leads = n ∧
    (∀ i, (i < n)%nat →
       leads !! i
       = Some (round_ndigits
                 (truediv (total_seconds
                    (instant (start_of first i)
                     - instant (earlier_of earliest called))) float_3600) 2)) ∧
    df = {| issue_time := replicate n (earlier_of earliest called);
            interval_start := start_of first <$> seq 0 n;
            interval_end := start_of first <$> seq 1 n;
            lead_time_hours := leads;
            GHI := column n (results_get "GHI" results);
            POAI := column n (results_get "POAI" results) |}.
Proof.
  intros Hdf. apply parse_response_table in Hdf as (Hst & -> & Hdf).
  apply parse_complete_Return in Hdf
    as (first & called & issue & results & n & starts & ends & leads
        & Hfirst & Hcalled & Hissue & Hres & Hn & Hstarts & Hends & Hleads & Hdf).
  apply pd_DataFrame_Return in Hdf as (Hle & Hll & _ & _ & ->).
  pose proof Hissue as Hissue'.
  apply forecast_issue_time_inv in Hissue' as (earliest & He & Hc & ->).
  pose proof (interval_starts_Return _ _ _ Hstarts) as [Hlen Hnth].
  pose proof (interval_ends_Return _ _ Hends) as [_ Hends'].
  pose proof (lead_times_Return _ _ _ Hleads) as [_ Hleads'].
  exists first, called, earliest, results, n, leads.
  assert (starts = start_of first <$> seq 0 n) as Hs.
  { apply list_eq. intros i. rewrite list_lookup_fmap.
    destruct (decide (i < n)%nat) as [Hi|Hi].
    - destruct (Hnth i Hi) as [-> _]. by rewrite lookup_seq_lt.
    - rewrite !lookup_ge_None_2; [done| |]; rewrite ?length_seq; lia. }
  assert (ends = start_of first <$> seq 1 n) as He'.
  { apply list_eq. intros i. rewrite list_lookup_fmap.
    destruct (decide (i < n)%nat) as [Hi|Hi].
    - destruct (Hnth i Hi) as [Hx _]. destruct (Hends' i _ Hx) as (y & -> & Hy).
      apply datetime_add_Return in Hy as [_ ->].
      rewrite lookup_seq_lt by done. simpl. f_equal.
      unfold start_of, timedelta_hours; simpl. f_equal. lia.
    - rewrite !lookup_ge_None_2; [done| |]; rewrite ?length_seq; lia. }
  split_and!; try done; try congruence.
  - intros i Hi. destruct (Hnth i Hi) as [Hx _].
    destruct (Hleads' i _ Hx) as (y & -> & Hy). f_equal.
    unfold lead_time in Hy. rewrite datetime_sub_comparable in Hy.
    + simpl in Hy. by injection Hy as <-.
    + unfold comparable. rewrite aware_start_of, aware_earlier_of by done.
      symmetry. by eapply datetime_add_aware.
Qed.

End TableShape.

(** ** More on [parse_response] *)

Section ReconstructMore.
Context `{Interp} {Q : Type}.
Implicit Types (res_json : payload (Q:=Q)) (df : DataFrame float Q).
Implicit Types (results : gmap string (option (list Q))).

(** X1. [parse_response] returns [None] for a pending payload and for no
    other: past the status test it returns a table or raises. It prints
    something exactly in that case too. *)
Theorem parse_response_none_iff_pending res_json :
  ((parse_response res_json).2 = Return None ↔ Status res_json = JStr "Pending") ∧
  ((parse_response res_json).1 = [] ↔ Status res_json ≠ JStr "Pending").
Proof.
  unfold parse_response. destruct (decide _) as [Hs|Hs]; simpl.
  - split; split; try done.
  - split; split; try done. by destruct (parse_complete res_json).
Qed.

(** X2. In a returned table the lead time of row [i] is the float
    expression of line 108 applied to [i] hours plus the larger of 4 hours
    and the time from the API call to the start of the first interval; so
    what goes into it is never less than [4 + i] hours, and it depends on
    the two timestamps only through the instants they denote. *)
Theorem parse_response_lead_gap res_json (out : list string) df
    (first called : datetime) :
  fromisoformat_arg (StartTime res_json) = Return first →
  fromisoformat_arg (TimeGenerated res_json) = Return called →
  parse_response res_json = (out, Return (Some df)) →
  ∀ i, (i < nrows df)%nat →
    let gap := timedelta_hours (Z.of_nat i)
               + Z.max (timedelta_hours 4) (instant first - instant called) in
    timedelta_hours (4 + Z.of_nat i) ≤ gap ∧
    lead_time_hours df !! i
    = Some (round_ndigits (truediv (total_seconds gap) float_3600) 2).
Proof.
  intros Hfirst Hcalled Hdf.
  apply parse_response_table_inv in Hdf
    as (first' & called' & earliest & results & n & leads
        & _ & _ & Hf' & Hc' & He & _ & _ & _ & _ & Hleads & ->).
  rewrite Hfirst in Hf'. injection Hf' as <-.
  rewrite Hcalled in Hc'. injection Hc' as <-.
  unfold nrows; simpl. rewrite length_fmap, length_seq. intros i Hi.
  apply datetime_add_instant in He.
  split; [unfold timedelta_hours; lia|].
  rewrite (Hleads i Hi). do 4 f_equal.
  rewrite instant_start_of, instant_earlier_of. lia.
Qed.


(** X4. For a payload that is not pending, whose two timestamps parse and
    whose issue time is defined, and whose results hold at least one output
    field, every present one an empty sequence: [parse_response] does not
    fail, the table comes back with its six columns and no row. *)
Theorem parse_response_empty_fields res_json results (first called issue : datetime) :
  Status res_json ≠ JStr "Pending" →
  fromisoformat_arg (StartTime res_json) = Return first →
  fromisoformat_arg (TimeGenerated res_json) = Return called →
  forecast_issue_time first called = Return issue →
  Results res_json = Some results →
  is_Some (results_get "GHI" results) ∨ is_Some (results_get "POAI" results) →
  (∀ l, results_get "GHI" results = Some l → l = []) →
  (∀ l, results_get "POAI" results = Some l → l = []) →
  parse_response res_json
  = ([], Return (Some {| issue_time := []; interval_start := [];
                         interval_end := []; lead_time_hours := [];
                         GHI := []; POAI := [] |})).
Proof.
  intros Hst Hfirst Hcalled Hissue Hres Hsome Hg Hp.
  unfold parse_response. rewrite decide_False by done.
  unfold parse_complete. rewrite Hfirst, Hcalled. simpl.
  rewrite Hissue, Hres. simpl.
  destruct (results_get "GHI" results) as [g|], (results_get "POAI" results) as [p|].
  - by rewrite (Hg g eq_refl), (Hp p eq_refl).
  - by rewrite (Hg g eq_refl).
  - by rewrite (Hp p eq_refl).
  - by destruct Hsome as [[? [=]]|[? [=]]].
Qed.

(** X5. For a payload that is not pending, whose two timestamps parse and
    whose issue time is defined, and whose results ask for at least one
    interval: when the last interval would end after [datetime.max], no
    table is returned, the interval arithmetic raises [OverflowError]. *)
Theorem parse_response_overflow res_json results (first called issue : datetime) :
  Status res_json ≠ JStr "Pending" →
  fromisoformat_arg (StartTime res_json) = Return first →
  fromisoformat_arg (TimeGenerated res_json) = Return called →
  forecast_issue_time first called = Return issue →
  Results res_json = Some results →
  is_Some (results_get "GHI" results) ∨ is_Some (results_get "POAI" results) →
  (0 < longest_present (results_get "GHI" results)
                       (results_get "POAI" results))%nat →
  wall_bound ≤ wall first + timedelta_hours (Z.of_nat
    (longest_present (results_get "GHI" results) (results_get "POAI" results))) →
  parse_response res_json = ([], Raise OverflowError).
Proof.
  intros Hst Hfirst Hcalled Hissue Hres Hsome Hpos Hbound.
  unfold parse_response. rewrite decide_False by done.
  unfold parse_complete. rewrite Hfirst, Hcalled. simpl.
  rewrite Hissue, Hres. simpl.
  rewrite num_forecasts_present by done. simpl.
  set (n := longest_present _ _) in *.
  destruct (interval_starts first n) as [starts|e] eqn:Hs; simpl.
  - destruct (interval_ends starts) as [ends|e] eqn:He; simpl.
    + exfalso.
      apply interval_starts_Return in Hs as [_ Hnth].
      apply interval_ends_Return in He as [_ He].
      destruct (Hnth (n - 1)%nat) as [Hx _]; [lia|].
      destruct (He _ _ Hx) as (y & _ & Hy).
      apply datetime_add_Return in Hy as [Hr _]. apply in_range_spec in Hr.
      unfold start_of, timedelta_hours in *; simpl in Hr. lia.
    + apply mapM_Raise in He as (x & _ & Hx).
      by apply datetime_add_Raise in Hx as [_ ->].
  - apply mapM_Raise in Hs as (x & _ & Hx).
    by apply datetime_add_Raise in Hx as [_ ->].
Qed.

(** X6. For a payload that is not pending, whose two timestamps parse,
    with [StartTime - 4 hours] within the range of [datetime]: when one of
    the two timestamps carries a UTC offset and the other does not, [min]
    cannot compare them, and [parse_response] raises [TypeError] and
    returns no table. *)
Theorem parse_response_mixed_awareness res_json (first called earliest : datetime) :
  Status res_json ≠ JStr "Pending" →
  fromisoformat_arg (StartTime res_json) = Return first →
  fromisoformat_arg (TimeGenerated res_json) = Return called →
  datetime_sub_timedelta first (timedelta_hours 4) = Return earliest →
  aware first ≠ aware called →
  parse_response res_json
  = ([], Raise (TypeError
                  "can't compare offset-naive and offset-aware datetimes")).
Proof.
  intros Hst Hfirst Hcalled He Hmix.
  unfold parse_response. rewrite decide_False by done.
  unfold parse_complete. rewrite Hfirst, Hcalled. simpl.
  unfold forecast_issue_time. rewrite He. simpl.
  apply datetime_add_Return in He as [_ ->].
  unfold py_min, datetime_lt, aware in *. simpl.
  destruct (utcoffset first), (utcoffset called); try done.
Qed.

(** X7. Whatever the payload, an exception of [parse_response] is a
    [TypeError], a [ValueError], an [AttributeError] or an
    [OverflowError], given that [fromisoformat] itself raises nothing but
    [ValueError] on a string. *)
Theorem parse_response_exception_classes res_json (out : list string) (e : exn) :
  (∀ s e', fromisoformat s = Raise e' → class_name e' = "ValueError") →
  parse_response res_json = (out, Raise e) →
  class_name e ∈ ["TypeError"; "ValueError"; "AttributeError"; "OverflowError"].
Proof.
  intros Hiso. unfold parse_response.
  destruct (decide _) as [?|_]; [discriminate|]. intros [= _ Hp].
  destruct (parse_complete res_json) as [?|e'] eqn:Hc; [discriminate|].
  injection Hp as ->. unfold parse_complete in Hc.
  assert (∀ v, fromisoformat_arg v = Raise e →
               class_name e ∈ ["TypeError"; "ValueError"; "AttributeError";
                               "OverflowError"]) as Harg.
  { intros [| | |s]; simpl; try (intros [= <-]; set_solver).
    intros Hs. rewrite (Hiso _ _ Hs). set_solver. }
  apply bind_Raise in Hc as [Hc|(first & _ & Hc)]; [by eapply Harg|].
  apply bind_Raise in Hc as [Hc|(called & _ & Hc)]; [by eapply Harg|].
  apply bind_Raise in Hc as [Hc|(issue & _ & Hc)].
  { unfold forecast_issue_time in Hc.
    apply bind_Raise in Hc as [Hc|(earliest & _ & Hc)].
    - apply datetime_add_Raise in Hc as [_ ->]. set_solver.
    - unfold py_min in Hc. apply bind_Raise in Hc as [Hc|(? & _ & [=])].
      unfold datetime_lt in Hc.
      destruct (utcoffset called), (utcoffset earliest);
        try discriminate; injection Hc as <-; set_solver. }
  apply bind_Raise in Hc as [Hc|(results & _ & Hc)].
  { destruct (Results res_json); [discriminate|]. injection Hc as <-. set_solver. }
  apply bind_Raise in Hc as [Hc|(n & _ & Hc)].
  { unfold num_forecasts, py_max in Hc.
    destruct (length <$> _); [|discriminate]. injection Hc as <-. set_solver. }
  apply bind_Raise in Hc as [Hc|(starts & _ & Hc)].
  { apply mapM_Raise in Hc as (x & _ & Hx).
    apply datetime_add_Raise in Hx as [_ ->]. set_solver. }
  apply bind_Raise in Hc as [Hc|(ends & _ & Hc)].
  { apply mapM_Raise in Hc as (x & _ & Hx).
    apply datetime_add_Raise in Hx as [_ ->]. set_solver. }
  apply bind_Raise in Hc as [Hc|(leads & _ & Hc)].
  { apply mapM_Raise in Hc as (x & _ & Hx). unfold lead_time in Hx.
    apply bind_Raise in Hx as [Hx|(? & _ & [=])]. unfold datetime_sub in Hx.
    destruct (utcoffset x), (utcoffset issue);
      try discriminate; injection Hx as <-; set_solver. }
  unfold pd_DataFrame in Hc. destruct (forallb _ _); [discriminate|].
  injection Hc as <-. set_solver.
Qed.

(** X8. A payload that is not pending and lacks a key fails at the first
    use of it: without a string under ['StartTime'], or then under
    ['TimeGenerated'], [fromisoformat] raises [TypeError]; without
    ['Results'], once the issue time is known, the lookup of the output
    fields raises [AttributeError]. *)
Theorem parse_response_missing_keys res_json :
  Status res_json ≠ JStr "Pending" →
  ((∀ s, StartTime res_json ≠ JStr s) →
     parse_response res_json
     = ([], Raise (TypeError "fromisoformat: argument must be str"))) ∧
  (∀ first, fromisoformat_arg (StartTime res_json) = Return first →
     (∀ s, TimeGenerated res_json ≠ JStr s) →
     parse_response res_json
     = ([], Raise (TypeError "fromisoformat: argument must be str"))) ∧
  (∀ first called issue,
     fromisoformat_arg (StartTime res_json) = Return first →
     fromisoformat_arg (TimeGenerated res_json) = Return called →
     forecast_issue_time first called = Return issue →
     Results res_json = None →
     parse_response res_json
     = ([], Raise (AttributeError "'NoneType' object has no attribute 'get'"))).
Proof.
  intros Hst. unfold parse_response. rewrite decide_False by done.
  unfold parse_complete. split_and!.
  - intros Hs. destruct (StartTime res_json) as [| | |s]; try done.
    by destruct (Hs s).
  - intros first -> Hs. simpl.
    destruct (TimeGenerated res_json) as [| | |s]; try done.
    by destruct (Hs s).
  - intros first called issue -> -> Hissue ->. simpl. by rewrite Hissue.
Qed.

(** X9. A backtest that asks for the start time [wanted + 4 hours] gets
    [wanted] back as issue time, whenever the API call was made at or after
    [wanted]: the four hours added in cell 12 are the four hours
    [parse_response] takes off. *)
Theorem backtest_issue_time_round_trip res_json (wanted start called : datetime) :
  in_range (wall wanted) = true →
  backtest_start_time wanted = Return start →
  comparable wanted called →
  instant wanted ≤ instant called →
  forecast_issue_time start called = Return wanted ∧
  ∀ out df,
    fromisoformat_arg (StartTime res_json) = Return start →
    fromisoformat_arg (TimeGenerated res_json) = Return called →
    parse_response res_json = (out, Return (Some df)) →
    issue_time df = replicate (nrows df) wanted.
Proof.
  intros Hr Hstart Hc Hle.
  assert (forecast_issue_time start called = Return wanted) as Hissue.
  { apply datetime_add_Return in Hstart as [_ ->].
    assert (datetime_sub_timedelta
              {| wall := wall wanted + timedelta_hours 4;
                 utcoffset := utcoffset wanted |} (timedelta_hours 4)
            = Return wanted) as Hback.
    { apply datetime_add_Return. simpl. destruct wanted as [w o]; simpl in *.
      replace (w + timedelta_hours 4 + - timedelta_hours 4) with w by lia.
      done. }
    rewrite (forecast_issue_time_Return _ _ _ Hback Hc).
    unfold earlier_of. by rewrite (proj2 (Z.ltb_ge _ _)). }
  split; [done|]. intros out df Hfirst Hcalled Hdf.
  apply parse_response_table in Hdf as (_ & _ & Hdf).
  apply parse_complete_Return in Hdf
    as (first' & called' & issue & results & n & starts & ends & leads
        & Hf' & Hc' & Hissue' & _ & _ & _ & _ & _ & Hdf).
  rewrite Hfirst in Hf'. injection Hf' as <-.
  rewrite Hcalled in Hc'. injection Hc' as <-.
  rewrite Hissue in Hissue'. injection Hissue' as <-.
  by apply pd_DataFrame_Return in Hdf as (_ & _ & _ & _ & ->).
Qed.

End ReconstructMore.

(** ** More on the requests *)

Lemma string_app_inv_head (p a b : string) : p +:+ a = p +:+ b → a = b.
Proof. induction p as [|c p IH]; simpl; [done|]. intros [= Hp]. by apply IH. Qed.

Lemma get_request_url_Return (self : PFXHandler) (g : Globals)
    (argument : Response) (req : Request) :
  get_request_url self g argument = Return req ↔
  ∃ checked d,
    post_response g = Some checked ∧ status_code checked = 200 ∧
    content checked = JSONObject d ∧
    req = polling_request self (dict_get "ProbabilisticForecastRequestId" d).
Proof.
  split.
  - unfold get_request_url. intros Hu.
    apply bind_Return in Hu as (checked & Hg & Hu).
    unfold global_post_response in Hg.
    destruct (post_response g) as [r|] eqn:Hr; [|discriminate].
    injection Hg as ->.
    apply bind_Return in Hu as ([] & Hs & Hu).
    destruct (decide (status_code checked = 200)) as [Hs'|]; [|discriminate].
    apply bind_Return in Hu as (b & Hb & Hu).
    apply bind_Return in Hu as (request_id & Hid & [= <-]).
    unfold json in Hb. destruct (content checked) as [|d|ty] eqn:Hc;
      try discriminate; injection Hb as <-; [|discriminate].
    injection Hid as <-. by exists checked, d.
  - intros (checked & d & Hg & Hs & Hc & ->).
    by eapply get_request_url_checked.
Qed.

Lemma sent_request_headers (self : PFXHandler) (g : Globals)
    (net : network) (argument : Response) (req : Request) :
  req ∈ (get_request self g net argument).1 →
  headers req = create_headers self.
Proof.
  unfold get_request.
  destruct (get_request_url self g argument) as [req'|e] eqn:Hu; simpl.
  - intros Hin. apply list_elem_of_singleton in Hin as ->.
    by apply get_request_url_Return in Hu as (checked & d & _ & _ & _ & ->).
  - intros Hin. by apply elem_of_nil in Hin.
Qed.

(** X10. [get_request] sends at most one request, and only a GET: to the
    polling URL [pfx_url] followed by [Result/] and an identifier, with the
    four headers of the handler and an empty body. *)
Theorem get_request_sends_one_GET (self : PFXHandler) (g : Globals)
    (net : network) (argument : Response) :
  (length (get_request self g net argument).1 ≤ 1)%nat ∧
  ∀ req, req ∈ (get_request self g net argument).1 →
    method req = "GET" ∧ headers req = create_headers self ∧ data req = "" ∧
    ∃ request_id, url req = pfx_url +:+ "Result/" +:+ request_id.
Proof.
  unfold get_request.
  destruct (get_request_url self g argument) as [req|e] eqn:Hu; simpl.
  - split; [lia|]. intros req' Hin. apply list_elem_of_singleton in Hin as ->.
    apply get_request_url_Return in Hu as (checked & d & _ & _ & _ & ->).
    split_and!; try done. by eexists.
  - split; [lia|]. intros req Hin. by apply elem_of_nil in Hin.
Qed.

(** X11. [get_request] hands back what the service answered to its GET,
    unexamined, be it an error status or a transport failure; when it sends
    nothing, it raised a [NameError], an [AssertionError], a
    [JSONDecodeError] or an [AttributeError]. *)
Theorem get_request_outcome (self : PFXHandler) (g : Globals)
    (net : network) (argument : Response) :
  (∃ req, get_request self g net argument = ([req], net req)) ∨
  (∃ e, get_request self g net argument = ([], Raise e) ∧
        class_name e ∈ ["NameError"; "AssertionError"; "JSONDecodeError";
                        "AttributeError"]).
Proof.
  unfold get_request.
  destruct (get_request_url self g argument) as [req|e] eqn:Hu.
  { left. by exists req. }
  right. exists e. split; [done|]. unfold get_request_url in Hu.
  apply bind_Raise in Hu as [Hu|(checked & _ & Hu)].
  { unfold global_post_response in Hu. destruct (post_response g); [discriminate|].
    injection Hu as <-. set_solver. }
  apply bind_Raise in Hu as [Hu|([] & _ & Hu)].
  { destruct (decide _); [discriminate|]. injection Hu as <-. set_solver. }
  apply bind_Raise in Hu as [Hu|(b & Hb & Hu)].
  { unfold json in Hu. destruct (content checked); try discriminate.
    injection Hu as <-. set_solver. }
  apply bind_Raise in Hu as [Hu|(? & _ & [=])].
  destruct b; simpl in Hu; try discriminate; injection Hu as <-; set_solver.
Qed.

(** X12. Two submissions whose bodies carry different string identifiers
    are never polled at the same URL. *)
Theorem get_request_distinct_jobs (self : PFXHandler) (g1 g2 : Globals)
    (net : network) (a1 a2 r1 r2 : Response) (d1 d2 : gmap string jval)
    (id1 id2 : string) :
  post_response g1 = Some r1 → status_code r1 = 200 →
  content r1 = JSONObject d1 →
  d1 !! "ProbabilisticForecastRequestId" = Some (JStr id1) →
  post_response g2 = Some r2 → status_code r2 = 200 →
  content r2 = JSONObject d2 →
  d2 !! "ProbabilisticForecastRequestId" = Some (JStr id2) →
  url <$> (get_request self g1 net a1).1 = url <$> (get_request self g2 net a2).1 →
  id1 = id2.
Proof.
  intros Hg1 Hs1 Hc1 Hd1 Hg2 Hs2 Hc2 Hd2. unfold get_request.
  rewrite (get_request_url_checked _ _ _ _ _ Hg1 Hs1 Hc1).
  rewrite (get_request_url_checked _ _ _ _ _ Hg2 Hs2 Hc2).
  unfold dict_get. rewrite Hd1, Hd2.
  change (([?x], _).1) with [x]. rewrite !list_fmap_singleton.
  unfold polling_request, py_str; cbn [url default]. intros [= Hurl].
  by apply string_app_inv_head in Hurl.
Qed.

(** X13. The key given to [PFXHandler(api_key=...)] is the ['X-Api-Key']
    header of every request the handler sends, POST or GET, next to the
    three fixed JSON headers. *)
Theorem api_key_on_every_request (key : string) (self : PFXHandler)
    (g : Globals) (net : network) (dumped : result string) (argument : Response) :
  PFXHandler_init (Some key) = Return self →
  ∀ req, req ∈ ((post_request self net dumped).1
                 ++ (get_request self g net argument).1)%list →
    header "X-Api-Key" req = Some key ∧
    header "Accept" req = Some "application/json" ∧
    header "Accept-Charset" req = Some "utf-8" ∧
    header "Content-Type" req = Some "application/json".
Proof.
  intros [= <-] req Hin.
  assert (headers req = create_headers {| api_key := key |}) as Hh.
  { apply elem_of_app in Hin as [Hin|Hin].
    - unfold post_request in Hin. destruct dumped; simpl in Hin.
      + by apply list_elem_of_singleton in Hin as ->.
      + by apply elem_of_nil in Hin.
    - by apply sent_request_headers in Hin. }
  unfold header. rewrite Hh. by vm_compute.
Qed.

(** X14. [post_request] does not look at the response: after its one POST
    to [pfx_url] it returns whatever the service answered. A submission
    that failed is stopped by [get_request] instead, which sends nothing
    for it; one that succeeded is polled at the URL of its identifier. When
    the body cannot be serialized nothing is sent at all. *)
Theorem post_request_then_get_request (self : PFXHandler) (net : network)
    (body_text : string) (r : Response) :
  let post := {| method := "POST"; url := pfx_url;
                 headers := create_headers self; data := body_text |} in
  net post = Return r →
  post_request self net (Return body_text) = ([post], Return r) ∧
  (status_code r ≠ 200 →
     ∃ e, get_request self {| post_response := Some r |} net r = ([], Raise e)
          ∧ class_name e = "AssertionError") ∧
  (status_code r = 200 →
     ∀ d id, content r = JSONObject d →
       d !! "ProbabilisticForecastRequestId" = Some (JStr id) →
       ∃ get, method get = "GET" ∧ url get = pfx_url +:+ "Result/" +:+ id ∧
              get_request self {| post_response := Some r |} net r
              = ([get], net get)) ∧
  (∀ e, post_request self net (Raise e) = ([], Raise e)).
Proof.
  intros post Hnet. subst post. split_and!.
  - unfold post_request. by rewrite Hnet.
  - intros Hs. eexists. unfold get_request.
    rewrite (get_request_url_refused self {| post_response := Some r |} r r);
      done.
  - intros Hs d id Hc Hd.
    exists (polling_request self (JStr id)). split_and!; try done.
    unfold get_request.
    rewrite (get_request_url_checked self {| post_response := Some r |} r r d);
      try done.
    unfold dict_get. by rewrite Hd.
  - done.
Qed.

(** ** The start time of a current forecast *)

(** X15. The start time cell 9 derives from the current time is on the
    hour, tagged UTC, and more than four but at most five hours ahead of
    the clock reading it came from. *)
Theorem forecast_start_time_ahead (current_time start : datetime) :
  forecast_start_time current_time = Return start →
  utcoffset start = Some 0 ∧
  wall start mod 3600000000 = 0 ∧
  in_range (wall start) = true ∧
  wall current_time + timedelta_hours 4 < wall start
    ≤ wall current_time + timedelta_hours 5.
Proof.
  unfold forecast_start_time. intros Hs.
  apply bind_Return in Hs as (t & Ht & [= <-]).
  apply datetime_add_Return in Ht as [Hr ->]. apply in_range_spec in Hr.
  unfold replace_hour_utc; simpl. unfold timedelta_hours in *.
  remember (wall current_time + 5 * 3600 * 1000000) as w eqn:Hw.
  pose proof (Z.mod_pos_bound w 3600000000 ltac:(lia)) as Hm.
  pose proof (Z.mod_le w 3600000000 ltac:(lia) ltac:(lia)) as Hle.
  split_and!.
  - done.
  - rewrite Zminus_mod, Z.mod_mod, Z.sub_diag by lia. done.
  - apply in_range_spec. lia.
  - lia.
  - lia.
Qed.

(** ** The further properties on the sample data *)

Example parse_response_early_call_cet :
  parse_response early_call_cet = ([], Return (Some early_table_cet)).
Proof. by vm_compute. Qed.

Lemma parse_response_lead_gap_witness :
  let gap := timedelta_hours (Z.of_nat 1)
             + Z.max (timedelta_hours 4) (instant t_0900 - instant t_0200) in
  timedelta_hours (4 + Z.of_nat 1) ≤ gap ∧
  lead_time_hours early_table !! 1%nat
  = Some (round_ndigits (truediv (total_seconds gap) float_3600) 2).
Proof.
  apply (parse_response_lead_gap (H:=cpython) early_call [] early_table
           t_0900 t_0200).
  - vm_compute. reflexivity.
  - vm_compute. reflexivity.
  - vm_compute. reflexivity.
  - vm_compute. lia.
Defined.


Lemma parse_response_empty_fields_witness :
  parse_response empty_field
  = ([], Return (Some {| issue_time := []; interval_start := [];
                         interval_end := []; lead_time_hours := [];
                         GHI := []; POAI := [] |})).
Proof.
  apply (parse_response_empty_fields (H:=cpython) empty_field
           {[ "GHI" := Some [] ]} t_0900 t_0200 t_0200).
  - discriminate.
  - vm_compute. reflexivity.
  - vm_compute. reflexivity.
  - vm_compute. reflexivity.
  - reflexivity.
  - left. vm_compute. eexists. reflexivity.
  - intros l Hl. vm_compute in Hl. by injection Hl.
  - intros l Hl. vm_compute in Hl. discriminate.
Defined.

Lemma parse_response_overflow_witness :
  parse_response last_hour = ([], Raise OverflowError).
Proof.
  apply (parse_response_overflow (H:=cpython) last_hour
           {[ "GHI" := Some [[110; 150]] ]} t_last_hour t_0200 t_0200).
  - discriminate.
  - vm_compute. reflexivity.
  - vm_compute. reflexivity.
  - vm_compute. reflexivity.
  - reflexivity.
  - left. vm_compute. eexists. reflexivity.
  - vm_compute. lia.
  - vm_compute. discriminate.
Defined.

Lemma parse_response_mixed_awareness_witness :
  parse_response mixed_call
  = ([], Raise (TypeError
                  "can't compare offset-naive and offset-aware datetimes")).
Proof.
  apply (parse_response_mixed_awareness (H:=cpython) mixed_call
           naive_0900 t_0200 naive_0500).
  - discriminate.
  - vm_compute. reflexivity.
  - vm_compute. reflexivity.
  - vm_compute. reflexivity.
  - vm_compute. discriminate.
Defined.

Lemma parse_response_exception_classes_witness :
  class_name (ValueError "max() arg is an empty sequence")
  ∈ ["TypeError"; "ValueError"; "AttributeError"; "OverflowError"].
Proof.
  apply (parse_response_exception_classes (H:=cpython) no_outputs []).
  - intros s e'. simpl. unfold CPython.fromisoformat.
    destruct (CPython.read_iso _); [discriminate|]. by intros [= <-].
  - vm_compute. reflexivity.
Defined.

Lemma parse_response_missing_keys_witness :
  ((∀ s, StartTime no_results ≠ JStr s) →
     parse_response no_results
     = ([], Raise (TypeError "fromisoformat: argument must be str"))) ∧
  (∀ first, fromisoformat_arg (StartTime no_results) = Return first →
     (∀ s, TimeGenerated no_results ≠ JStr s) →
     parse_response no_results
     = ([], Raise (TypeError "fromisoformat: argument must be str"))) ∧
  (∀ first called issue,
     fromisoformat_arg (StartTime no_results) = Return first →
     fromisoformat_arg (TimeGenerated no_results) = Return called →
     forecast_issue_time first called = Return issue →
     Results no_results = None →
     parse_response no_results
     = ([], Raise (AttributeError "'NoneType' object has no attribute 'get'"))).
Proof.
  apply (parse_response_missing_keys (H:=cpython) no_results).
  discriminate.
Defined.

Example parse_response_no_results :
  parse_response no_results
  = ([], Raise (AttributeError "'NoneType' object has no attribute 'get'")).
Proof. by vm_compute. Qed.

Example parse_response_backtest_call :
  backtest_start_time t_0200 = Return t_0600 ∧
  fmap (M:=option) issue_time <$> (parse_response backtest_call).2
  = Return (Some [t_0200; t_0200]).
Proof. by vm_compute. Qed.

Lemma backtest_issue_time_round_trip_witness :
  forecast_issue_time t_0600 t_0830 = Return t_0200 ∧
  ∀ out df,
    fromisoformat_arg (StartTime backtest_call) = Return t_0600 →
    fromisoformat_arg (TimeGenerated backtest_call) = Return t_0830 →
    parse_response backtest_call = (out, Return (Some df)) →
    issue_time df = replicate (nrows df) t_0200.
Proof.
  apply (backtest_issue_time_round_trip (H:=cpython) backtest_call
           t_0200 t_0600 t_0830).
  - vm_compute. reflexivity.
  - vm_compute. reflexivity.
  - vm_compute. reflexivity.
  - vm_compute. discriminate.
Defined.

Lemma get_request_sends_one_GET_witness :
  (length (get_request handler {| post_response := Some created |}
             service rejected).1 ≤ 1)%nat ∧
  ∀ req, req ∈ (get_request handler {| post_response := Some created |}
                  service rejected).1 →
    method req = "GET" ∧ headers req = create_headers handler ∧ data req = "" ∧
    ∃ request_id, url req = pfx_url +:+ "Result/" +:+ request_id.
Proof.
  apply (get_request_sends_one_GET handler
           {| post_response := Some created |} service rejected).
Defined.

Lemma get_request_distinct_jobs_witness : "abc123" = "abc123".
Proof.
  apply (get_request_distinct_jobs handler
           {| post_response := Some created |} {| post_response := Some created |}
           service created rejected created created
           (<[ "Status" := JStr "Pending" ]>
            {[ "ProbabilisticForecastRequestId" := JStr "abc123" ]})
           (<[ "Status" := JStr "Pending" ]>
            {[ "ProbabilisticForecastRequestId" := JStr "abc123" ]})
           "abc123" "abc123").
  - reflexivity.
  - reflexivity.
  - reflexivity.
  - vm_compute. reflexivity.
  - reflexivity.
  - reflexivity.
  - reflexivity.
  - vm_compute. reflexivity.
  - reflexivity.
Defined.

Lemma api_key_on_every_request_witness :
  let get := polling_request handler (JStr "abc123") in
  header "X-Api-Key" get = Some "demo-key" ∧
  header "Accept" get = Some "application/json" ∧
  header "Accept-Charset" get = Some "utf-8" ∧
  header "Content-Type" get = Some "application/json".
Proof.
  apply (api_key_on_every_request "demo-key" handler
           {| post_response := Some created |} service (Return "{}") created).
  - reflexivity.
  - vm_compute. right. left.
Defined.

Lemma post_request_then_get_request_witness :
  let post := {| method := "POST"; url := pfx_url;
                 headers := create_headers handler; data := "{}" |} in
  post_request handler service (Return "{}") = ([post], Return pending_answer) ∧
  (status_code pending_answer ≠ 200 →
     ∃ e, get_request handler {| post_response := Some pending_answer |}
            service pending_answer = ([], Raise e)
          ∧ class_name e = "AssertionError") ∧
  (status_code pending_answer = 200 →
     ∀ d id, content pending_answer = JSONObject d →
       d !! "ProbabilisticForecastRequestId" = Some (JStr id) →
       ∃ get, method get = "GET" ∧ url get = pfx_url +:+ "Result/" +:+ id ∧
              get_request handler {| post_response := Some pending_answer |}
                service pending_answer
              = ([get], service get)) ∧
  (∀ e, post_request handler service (Raise e) = ([], Raise e)).
Proof.
  apply (post_request_then_get_request handler service "{}" pending_answer).
  reflexivity.
Defined.

Lemma forecast_start_time_ahead_witness :
  utcoffset t_1300 = Some 0 ∧
  wall t_1300 mod 3600000000 = 0 ∧
  in_range (wall t_1300) = true ∧
  wall naive_0830 + timedelta_hours 4 < wall t_1300
    ≤ wall naive_0830 + timedelta_hours 5.
Proof.
  apply (forecast_start_time_ahead naive_0830 t_1300).
  vm_compute. reflexivity.
Defined.

(** ** The issue time, the number of rows and the lead times of the table *)

Section ReconstructRows.
Context `{Interp} {Q : Type}.
Implicit Types (res_json : payload (Q:=Q)) (df : DataFrame float Q).
Implicit Types (results : gmap string (option (list Q))).

Lemma comparable_earliest (first called earliest : datetime) :
  datetime_sub_timedelta first (timedelta_hours 4) = Return earliest →
  comparable first called → comparable earliest called.
Proof.
  intros He Hc. unfold comparable in *.
  by rewrite (datetime_add_aware _ _ _ He).
Qed.

(** C2, as the code has it. For a payload that is not pending, whose
    [StartTime] and [TimeGenerated] parse to datetimes that are both naive
    or both aware, with [StartTime - 4 hours] within the range of
    [datetime], the issue time is [min(start_time - 4 hours,
    time_generated)]: [time_generated] when the call was made before
    [start_time - 4h], and [start_time - 4h] otherwise. [parse_response]
    never returns [None] for such a payload; whatever table it returns
    carries that issue time in every row; and it does return one, with a row
    per interval, when the results hold an output field, of equal lengths
    when they hold both, and the intervals end within the range of
    [datetime]. *)
Theorem parse_response_issue_time res_json (ss sg : string)
    (first called earliest : datetime) :
  Status res_json ≠ JStr "Pending" →
  StartTime res_json = JStr ss → fromisoformat ss = Return first →
  TimeGenerated res_json = JStr sg → fromisoformat sg = Return called →
  datetime_sub_timedelta first (timedelta_hours 4) = Return earliest →
  comparable first called →
  ∃ issue,
    forecast_issue_time first called = Return issue ∧
    instant issue
      = Z.min (instant first - timedelta_hours 4) (instant called) ∧
    (instant called < instant first - timedelta_hours 4 → issue = called) ∧
    (instant first - timedelta_hours 4 ≤ instant called → issue = earliest) ∧
    (∀ out r, parse_response res_json = (out, r) →
       out = [] ∧
       (raises r ∨
        ∃ df, r = Return (Some df) ∧
              issue_time df = replicate (nrows df) issue)) ∧
    (∀ results,
       Results res_json = Some results →
       is_Some (results_get "GHI" results)
         ∨ is_Some (results_get "POAI" results) →
       (∀ g p, results_get "GHI" results = Some g →
               results_get "POAI" results = Some p → length g = length p) →
       wall first + timedelta_hours (Z.of_nat
         (longest_present (results_get "GHI" results)
                          (results_get "POAI" results))) < wall_bound →
       ∃ df, parse_response res_json = ([], Return (Some df)) ∧
             nrows df = longest_present (results_get "GHI" results)
                                        (results_get "POAI" results) ∧
             issue_time df = replicate (nrows df) issue).
Proof.
  intros Hst Hss Hfirst Hsg Hcalled He Hc0.
  pose proof (comparable_earliest _ _ _ He Hc0) as Hc.
  assert (fromisoformat_arg (StartTime res_json) = Return first) as Hf
    by by rewrite Hss.
  assert (fromisoformat_arg (TimeGenerated res_json) = Return called) as Hg
    by by rewrite Hsg.
  pose proof (forecast_issue_time_Return _ _ _ He Hc) as Hissue.
  assert (instant earliest = instant first - timedelta_hours 4) as Hi.
  { apply datetime_add_instant in He. lia. }
  assert (∀ out df, parse_response res_json = (out, Return (Some df)) →
            nrows df = length (interval_start df) ∧
            issue_time df = replicate (nrows df) (earlier_of earliest called))
    as Htable.
  { intros out df Hdf. split; [done|].
    apply parse_response_table in Hdf as (_ & _ & Hdf).
    apply parse_complete_Return in Hdf
      as (first' & called' & issue & results & n & starts & ends & leads
          & Hf' & Hc' & Hissue' & _ & _ & _ & _ & _ & Hdf).
    rewrite Hf in Hf'. injection Hf' as <-.
    rewrite Hg in Hc'. injection Hc' as <-.
    rewrite Hissue in Hissue'. injection Hissue' as <-.
    by apply pd_DataFrame_Return in Hdf as (_ & _ & _ & _ & ->). }
  exists (earlier_of earliest called). split_and!.
  - done.
  - by rewrite instant_earlier_of, Hi.
  - intros Hlt. unfold earlier_of. by rewrite Hi, (proj2 (Z.ltb_lt _ _)).
  - intros Hle. unfold earlier_of. by rewrite Hi, (proj2 (Z.ltb_ge _ _)).
  - intros out r Hr. unfold parse_response in Hr.
    rewrite decide_False in Hr by done. injection Hr as <- <-.
    split; [done|].
    destruct (parse_complete res_json) as [df|e] eqn:Hp; [right|left; by exists e].
    exists df. split; [done|].
    apply (Htable [] df). unfold parse_response.
    rewrite decide_False by done. by rewrite Hp.
  - intros results Hres Hsome Heq Hbound.
    destruct (parse_response_returns res_json results first called earliest)
      as [df Hdf]; try done.
    exists df. split; [done|].
    destruct (Htable _ _ Hdf) as [_ Hcol]. split; [|done].
    apply parse_response_table in Hdf as (_ & _ & Hdf).
    apply parse_complete_Return in Hdf
      as (first' & called' & issue & results' & n & starts & ends & leads
          & _ & _ & _ & Hres' & Hn & Hstarts & _ & _ & Hdf).
    rewrite Hres in Hres'. injection Hres' as <-.
    rewrite num_forecasts_present in Hn by done. injection Hn as <-.
    apply interval_starts_Return in Hstarts as [Hlen _].
    by apply pd_DataFrame_Return in Hdf as (_ & _ & _ & _ & ->).
Qed.

(** C4. When at least one of GHI and POAI is present in the results, the
    number of intervals is the largest length among the present sequences.
    Whatever [parse_response] then returns, short of the pending signal of a
    pending payload or an exception, is a table with that many rows, which
    carries a present field entry by entry and an absent one as null in
    every row; and it does return that table for a payload that is not
    pending, whose issue time is defined, whose fields have equal lengths
    when both are present, and whose intervals end within the range of
    [datetime]. *)
Theorem parse_response_num_intervals res_json results :
  Results res_json = Some results →
  is_Some (results_get "GHI" results) ∨ is_Some (results_get "POAI" results) →
  let ghi := results_get "GHI" results in
  let poai := results_get "POAI" results in
  let n := longest_present ghi poai in
  num_forecasts ghi poai = Return n ∧
  (∀ out r, parse_response res_json = (out, r) →
     (r = Return None ∧ Status res_json = JStr "Pending") ∨ raises r ∨
     ∃ df, r = Return (Some df) ∧ nrows df = n ∧
           (ghi = None → GHI df = replicate n None) ∧
           (poai = None → POAI df = replicate n None) ∧
           (∀ l, ghi = Some l → GHI df = Some <$> l) ∧
           (∀ l, poai = Some l → POAI df = Some <$> l)) ∧
  (∀ first called issue,
     Status res_json ≠ JStr "Pending" →
     fromisoformat_arg (StartTime res_json) = Return first →
     fromisoformat_arg (TimeGenerated res_json) = Return called →
     forecast_issue_time first called = Return issue →
     (∀ g p, ghi = Some g → poai = Some p → length g = length p) →
     wall first + timedelta_hours (Z.of_nat n) < wall_bound →
     ∃ df, parse_response res_json = ([], Return (Some df)) ∧ nrows df = n ∧
           (ghi = None → GHI df = replicate n None) ∧
           (poai = None → POAI df = replicate n None) ∧
           (∀ l, ghi = Some l → GHI df = Some <$> l) ∧
           (∀ l, poai = Some l → POAI df = Some <$> l)).
Proof.
  intros Hres Hsome ghi poai n. subst ghi poai n.
  set (ghi := results_get "GHI" results) in *.
  set (poai := results_get "POAI" results) in *.
  set (n := longest_present ghi poai) in *.
  assert (∀ out df, parse_response res_json = (out, Return (Some df)) →
            nrows df = n ∧
            (ghi = None → GHI df = replicate n None) ∧
            (poai = None → POAI df = replicate n None) ∧
            (∀ l, ghi = Some l → GHI df = Some <$> l) ∧
            (∀ l, poai = Some l → POAI df = Some <$> l)) as Htable.
  { intros out df Hdf. apply parse_response_table in Hdf as (_ & _ & Hdf).
    apply parse_complete_Return in Hdf
      as (first & called & issue & results' & n' & starts & ends & leads
          & _ & _ & _ & Hres' & Hn & Hstarts & _ & _ & Hdf).
    rewrite Hres in Hres'. injection Hres' as <-.
    rewrite num_forecasts_present in Hn by done. injection Hn as <-.
    apply interval_starts_Return in Hstarts as [Hlen _].
    apply pd_DataFrame_Return in Hdf as (_ & _ & _ & _ & ->).
    unfold nrows; simpl. rewrite Hlen. fold ghi poai. fold n.
    clearbody n. clearbody ghi poai.
    split_and!; [done|by intros ->|by intros ->|by intros l ->|by intros l ->]. }
  split_and!.
  - by apply num_forecasts_present.
  - intros out r Hr. unfold parse_response in Hr.
    destruct (decide (Status res_json = JStr "Pending")) as [Hst|Hst].
    { injection Hr as <- <-. by left. }
    injection Hr as <- <-. right.
    destruct (parse_complete res_json) as [df|e] eqn:Hp; [right|left; by exists e].
    exists df. split; [done|]. apply (Htable [] df).
    unfold parse_response. rewrite decide_False by done. by rewrite Hp.
  - intros first called issue Hst Hfirst Hcalled Hissue Heq Hbound.
    apply forecast_issue_time_inv in Hissue as (earliest & He & Hc & _).
    destruct (parse_response_returns res_json results first called earliest)
      as [df Hdf]; try done.
    exists df. split; [done|]. by apply (Htable [] df).
Qed.

(** C5, as the code has it. In a returned table the lead time of row [i]
    is the float [round(td.total_seconds() / 3600.0, 2)] for
    [td = interval_start[i] - issue_time[i]], a difference that is always
    defined: the division and the rounding are those of floating-point
    numbers, applied to the float quotient. *)
Theorem parse_response_lead_time_rows res_json (out : list string) df :
  parse_response res_json = (out, Return (Some df)) →
  length (lead_time_hours df) = nrows df ∧
  ∀ i, (i < nrows df)%nat →
    ∃ int_start issue td,
      interval_start df !! i = Some int_start ∧
      issue_time df !! i = Some issue ∧
      datetime_sub int_start issue = Return td ∧
      lead_time_hours df !! i
      = Some (round_ndigits (truediv (total_seconds td) float_3600) 2).
Proof.
  intros Hdf.
  apply parse_response_table_inv in Hdf
    as (first & called & earliest & results & n & leads
        & _ & _ & _ & _ & He & Hc & _ & _ & Hlen & Hleads & ->).
  unfold nrows; simpl. rewrite length_fmap, length_seq.
  split; [done|]. intros i Hi.
  exists (start_of first i), (earlier_of earliest called),
         (instant (start_of first i) - instant (earlier_of earliest called)).
  split_and!.
  - rewrite list_lookup_fmap, lookup_seq_lt by done. done.
  - by apply lookup_replicate_2.
  - apply datetime_sub_comparable. unfold comparable.
    rewrite aware_start_of, aware_earlier_of by done.
    symmetry. by eapply datetime_add_aware.
  - by apply Hleads.
Qed.

End ReconstructRows.

(** ** The issue time, the rows and the lead times on the sample data *)

Example parse_response_tie_call :
  parse_response tie_call = ([], Return (Some tie_table)).
Proof. by vm_compute. Qed.

Lemma parse_response_issue_time_witness :
  ∃ issue,
    forecast_issue_time t_0900 t_0200 = Return issue ∧
    issue = t_0200 ∧
    ∃ df, parse_response early_call = ([], Return (Some df)) ∧
          nrows df = 3%nat ∧
          issue_time df = replicate (nrows df) issue.
Proof.
  destruct (parse_response_issue_time (H:=cpython) early_call
              "2024-02-14T09:00:00+00:00" "2024-02-14T02:00:00+00:00"
              t_0900 t_0200 t_0500)
    as (issue & Hissue & _ & Hearly & _ & _ & Hreturns).
  - discriminate.
  - reflexivity.
  - vm_compute. reflexivity.
  - reflexivity.
  - vm_compute. reflexivity.
  - vm_compute. reflexivity.
  - vm_compute. reflexivity.
  - exists issue. split; [exact Hissue|]. split.
    + apply Hearly. vm_compute. reflexivity.
    + destruct (Hreturns {[ "GHI" := Some [[110; 150]; [210; 260]; [300; 380]] ]})
        as (df & Hdf & Hn & Hcol).
      * reflexivity.
      * left. vm_compute. eexists. reflexivity.
      * intros g p _ Hp. vm_compute in Hp. discriminate.
      * vm_compute. reflexivity.
      * exists df. split; [exact Hdf|]. split; [exact Hn | exact Hcol].
Defined.

Lemma parse_response_num_intervals_witness :
  let results : gmap string (option (list (list Z))) :=
    {[ "GHI" := Some [[110; 150]; [210; 260]; [300; 380]] ]} in
  num_forecasts (results_get "GHI" results) (results_get "POAI" results)
    = Return 3%nat ∧
  ∃ df, parse_response early_call = ([], Return (Some df)) ∧
        nrows df = 3%nat ∧
        POAI df = replicate 3 None ∧
        GHI df = Some <$> [[110; 150]; [210; 260]; [300; 380]].
Proof.
  intros results.
  destruct (parse_response_num_intervals (H:=cpython) early_call results)
    as (Hn & _ & Hreturns).
  - reflexivity.
  - left. vm_compute. eexists. reflexivity.
  - split; [exact Hn|].
    destruct (Hreturns t_0900 t_0200 t_0200)
      as (df & Hdf & Hrows & _ & Hpoai & Hghi & _).
    + discriminate.
    + vm_compute. reflexivity.
    + vm_compute. reflexivity.
    + vm_compute. reflexivity.
    + intros g p _ Hp. vm_compute in Hp. discriminate.
    + vm_compute. reflexivity.
    + exists df. split; [exact Hdf|]. split; [exact Hrows|]. split.
      * apply Hpoai. vm_compute. reflexivity.
      * apply Hghi. vm_compute. reflexivity.
Defined.

Lemma parse_response_lead_time_rows_witness :
  length (lead_time_hours early_table) = nrows early_table ∧
  ∀ i, (i < nrows early_table)%nat →
    ∃ int_start issue td,
      interval_start early_table !! i = Some int_start ∧
      issue_time early_table !! i = Some issue ∧
      datetime_sub int_start issue = Return td ∧
      lead_time_hours early_table !! i
      = Some (round_ndigits (truediv (total_seconds td) float_3600) 2).
Proof.
  apply (parse_response_lead_time_rows (H:=cpython) early_call [] early_table).
  vm_compute. reflexivity.
Defined.

(** C2. Two payloads that are not pending and whose timestamps both parse,
    for which no issue time is computed: a start time without UTC offset
    against a call time with one ([min] raises [TypeError]), and a start
    time in the first four hours of year 1 (the subtraction raises
    [OverflowError]). *)
Lemma parse_response_issue_time_counterexample :
  (Status mixed_call ≠ JStr "Pending" ∧
   fromisoformat_arg (StartTime mixed_call) = Return naive_0900 ∧
   fromisoformat_arg (TimeGenerated mixed_call) = Return t_0200 ∧
   forecast_issue_time naive_0900 t_0200
   = Raise (TypeError "can't compare offset-naive and offset-aware datetimes") ∧
   parse_response mixed_call
   = ([], Raise (TypeError
                   "can't compare offset-naive and offset-aware datetimes"))) ∧
  (Status year_one_call ≠ JStr "Pending" ∧
   fromisoformat_arg (StartTime year_one_call) = Return (utc 10800000000) ∧
   fromisoformat_arg (TimeGenerated year_one_call) = Return t_0200 ∧
   forecast_issue_time (utc 10800000000) t_0200 = Raise OverflowError ∧
   parse_response year_one_call = ([], Raise OverflowError)).
Proof. split; split_and!; try discriminate; by vm_compute. Qed.

(** C5. In the table of [tie_call] the first interval starts
    4 h 00 min 54 s after the issue time, exactly 4.015 hours: rounded to
    two decimals that is 4.02, and the table holds 4.01. Four rows further
    the same half hundredth, 8.015 hours, is rounded the other way, to
    8.02. *)
Lemma parse_response_lead_time_counterexample :
  parse_response tie_call = ([], Return (Some tie_table)) ∧
  (interval_start tie_table !! 0%nat = Some t_0900 ∧
   issue_time tie_table !! 0%nat = Some t_045906 ∧
   datetime_sub t_0900 t_045906 = Return 14454000000 ∧
   14454000000 mod 36000000 = 18000000 ∧
   lead_time_hours tie_table !! 0%nat = Some (CPython.int_truediv 401 100) ∧
   lead_time_hours_exact 14454000000 = CPython.int_truediv 402 100 ∧
   CPython.int_truediv 401 100 ≠ CPython.int_truediv 402 100) ∧
  (interval_start tie_table !! 4%nat = Some t_1300 ∧
   issue_time tie_table !! 4%nat = Some t_045906 ∧
   datetime_sub t_1300 t_045906 = Return 28854000000 ∧
   28854000000 mod 36000000 = 18000000 ∧
   lead_time_hours tie_table !! 4%nat = Some (CPython.int_truediv 802 100)).
Proof.
  split_and!; by vm_compute.
Qed.
